(** * osdctl: [cluster support delete]

    A shallow embedding of [cmd/cluster/support/delete.go] and the
    properties of its request builder, its response interpreter and its
    orchestrator.

    The command talks to the outside world only through a handful of calls
    (environment, OCM SDK, JSON decoder, terminal).  The embedding keeps
    the Go control flow and records every such call, in order, in a trace;
    what the outside world answers is collected in a [World].  A Go
    function becomes a computation in the monad [proc]: it produces a
    trace and ends by returning, by terminating the process ([os.Exit]) or
    by panicking. *)

From Stdlib Require Import String Ascii List ZArith Bool.
From Stdlib Require Import Strings.Byte DecimalString.
From ExtLib Require Import Structures.Monad.
Import ListNotations.
Import MonadNotation.

Local Open Scope Z_scope.
Local Open Scope list_scope.
Local Open Scope string_scope.
Local Open Scope monad_scope.

(** ** Data *)

(** A Go [error], seen through its [Error()] message. *)
Definition error := string.

(** A Go [[]byte]. *)
Definition bytes := list byte.

(** [*sdk.Connection]: the authenticated session. *)
Record Connection := mkConnection {
  conn_token : string
}.

(** [*v1.Cluster]: the canonical cluster record.  [delete.go] reads [ID]
    only; the record has further fields. *)
Record Cluster := mkCluster {
  ID : string;
  ExternalID : string;
  Name : string
}.

(** [*sdk.Request]. *)
Record Request := mkRequest {
  transport : Connection;
  method : string;
  path : string;
  query : list (string * string)
}.

(** [*sdk.Response]: status code and raw body. *)
Record Response := mkResponse {
  status : Z;
  body : bytes
}.

(** Modelled from the spec: [support.BadReply], the error-shape record the
    service answers with, is declared in [internal/support], which is not
    among the sources.  The spec calls its shape externally defined, so it
    is kept as the decoded fields. *)
Record BadReply := mkBadReply {
  reply_fields : list (string * string)
}.

(** [deleteOptions], without the I/O streams. *)
Record deleteOptions := mkDeleteOptions {
  output : string;
  verbose : bool;
  clusterID : string;
  limitedSupportReasonID : string
}.

(** The package-level variables [run] reads. *)
Record Package := mkPackage {
  isDryRun : bool
}.

(** [http.StatusNoContent] and [http.MethodDelete]. *)
Definition StatusNoContent : Z := 204.
Definition MethodDelete : string := "DELETE".

(** ** Traces and outcomes *)

(** One entry per call that leaves the program. *)
Inductive event : Type :=
| EGetenv (name : string)
| EGetOCMAccessToken
| ELogFatalf (msg : string)
| EBuild (token : string) (built : Connection + error)
| EClose (c : Connection)
| EConfirmSend
| EClusterGet (c : Connection) (id : string)
| EDelete (c : Connection)
| EApplyPathArg (r : Request) (target : string)
| ESendRequest (r : option Request)
| EStdout (s : string)
| EStderr (s : string).

(** How a Go function ends. *)
Inductive outcome (A : Type) : Type :=
| Returned (a : A)
| Exited (code : Z)
| Panicked (msg : string).

Arguments Returned {A} a.
Arguments Exited {A} code.
Arguments Panicked {A} msg.

Definition proc (A : Type) : Type := (list event * outcome A)%type.

Definition proc_ret {A : Type} (a : A) : proc A := ([], Returned a).

Definition proc_bind {A B : Type} (m : proc A) (k : A -> proc B) : proc B :=
  match m with
  | (t, Returned a) => let (t', o) := k a in ((t ++ t')%list, o)
  | (t, Exited code) => (t, Exited code)
  | (t, Panicked msg) => (t, Panicked msg)
  end.

#[global] Instance Monad_proc : Monad proc :=
  {| ret := @proc_ret; bind := @proc_bind |}.

Definition emit (e : event) : proc unit := ([e], Returned tt).

(** [os.Exit]: the process terminates at once. *)
Definition os_Exit {A : Type} (code : Z) : proc A := ([], Exited code).

Definition panic {A : Type} (msg : string) : proc A := ([], Panicked msg).

(** Completion of a function after [defer d]: the deferred call runs when
    the rest of the function returns and when it panics; [os.Exit] ends the
    process without running deferred calls. *)
Definition defer {A : Type} (d : proc unit) (rest : proc A) : proc A :=
  match rest with
  | (t, Returned a) =>
      match d with
      | (t', Returned _) => ((t ++ t')%list, Returned a)
      | (t', Exited code) => ((t ++ t')%list, Exited code)
      | (t', Panicked msg) => ((t ++ t')%list, Panicked msg)
      end
  | (t, Panicked msg) =>
      match d with
      | (t', Exited code) => ((t ++ t')%list, Exited code)
      | (t', _) => ((t ++ t')%list, Panicked msg)
      end
  | (t, Exited code) => (t, Exited code)
  end.

(** [if err != nil { ... }] *)
Definition if_err (err : option error) (handler : error -> proc unit) : proc unit :=
  match err with
  | Some e => handler e
  | None => ret tt
  end.

Definition nl : string := String "010"%char EmptyString.

(** The message of the fatal log entry of [run]. *)
Definition fatal_no_token : string :=
  "OCM token not set. Please configure by using the OCM_TOKEN environment variable or the ocm cli".

Definition nil_dereference : string :=
  "runtime error: invalid memory address or nil pointer dereference".

(** ** The outside world *)

(** The answers of the collaborators that are not part of [delete.go]:
    the Go library, the OCM SDK and CLI, and the helpers of this package
    defined in other files ([confirmSend], [sendRequest]). *)
Record World := mkWorld {
  environ : string -> string;
  ocm_access_token : option string * option error;
  build_result : string -> Connection + error;
  confirm_result : outcome (option error);
  cluster_get_result : Connection -> string -> Cluster + error;
  apply_path_arg : Request -> string -> Request * option error;
  send_result : option Request -> outcome (option Response * option error);
  valid_json : bytes -> bool;
  unmarshal : bytes -> option BadReply -> option BadReply * option error;
  quote : string -> string
}.

Section Calls.

Variable w : World.

(** [os.Getenv] *)
Definition os_Getenv (name : string) : proc string :=
  emit (EGetenv name) ;; ret (environ w name).

(** [ctlutil.GetOCMAccessToken] *)
Definition GetOCMAccessToken : proc (option string * option error) :=
  emit EGetOCMAccessToken ;; ret (ocm_access_token w).

(** [log.Fatalf]: the message goes to the logger, then [os.Exit(1)]. *)
Definition log_Fatalf (msg : string) : proc unit :=
  emit (ELogFatalf msg) ;; os_Exit 1.

(** [sdk.NewConnectionBuilder().Tokens(token).Build()] *)
Definition Build (token : string) : proc (Connection + error) :=
  emit (EBuild token (build_result w token)) ;; ret (build_result w token).

(** [connection.Close()] *)
Definition Close (c : Connection) : proc unit := emit (EClose c).

(** [confirmSend()], of this package's [post.go]. *)
Definition confirmSend : proc (option error) :=
  (emit EConfirmSend ;; ([], confirm_result w)).

(** [connection.ClustersMgmt().V1().Clusters().Cluster(id).Get().SendContext(ctx)],
    followed by [Body()] on success. *)
Definition Get_SendContext (c : Connection) (id : string) : proc (Cluster + error) :=
  emit (EClusterGet c id) ;; ret (cluster_get_result w c id).

(** [ocmClient.Delete()] *)
Definition Delete (c : Connection) : proc Request :=
  emit (EDelete c) ;; ret (mkRequest c MethodDelete EmptyString []).

(** [arguments.ApplyPathArg(request, path)]: updates the request in place. *)
Definition ApplyPathArg (r : Request) (target : string) : proc (Request * option error) :=
  emit (EApplyPathArg r target) ;; ret (apply_path_arg w r target).

(** [sendRequest(request)], of this package's [post.go]. *)
Definition sendRequest (r : option Request) : proc (option Response * option error) :=
  (emit (ESendRequest r) ;; ([], send_result w r)).

(** [fmt.Printf] and [fmt.Fprintf(os.Stderr, ...)], applied to the
    formatted text. *)
Definition fmt_Printf (s : string) : proc unit := emit (EStdout s).
Definition fmt_Fprintf_Stderr (s : string) : proc unit := emit (EStderr s).

(** The verb [%q] applied to an error. *)
Definition verb_q (err : error) : string := quote w err.

(** [response.Bytes()] and [response.Status()]: both read a field of the
    response, which a nil response does not have. *)
Definition Response_Bytes (response : option Response) : proc bytes :=
  match response with
  | Some r => ret (body r)
  | None => panic nil_dereference
  end.

Definition Response_Status (response : option Response) : proc Z :=
  match response with
  | Some r => ret (status r)
  | None => panic nil_dereference
  end.

(** [*ocmToken] *)
Definition deref_string (p : option string) : proc string :=
  match p with
  | Some s => ret s
  | None => panic nil_dereference
  end.

(** ** [delete.go] *)

(** [createDeleteRequest] sets the delete API and returns a request. *)
Definition createDeleteRequest (ocmClient : Connection) (cluster : Cluster)
    (reasonID : string) : proc (option Request * option error) :=
  let targetAPIPath :=
    "/api/clusters_mgmt/v1/clusters/" ++ ID cluster
      ++ "/limited_support_reasons/" ++ reasonID in
  request <- Delete ocmClient ;;
  '(request, err) <- ApplyPathArg request targetAPIPath ;;
  match err with
  | Some err =>
      ret (None, Some ("cannot parse API path '" ++ targetAPIPath ++ "': " ++ err))
  | None => ret (Some request, None)
  end.

(** [checkDelete] checks the response from the delete API call. *)
Definition checkDelete (response : option Response) : proc (option error) :=
  let badReply : option BadReply := None in
  body <- Response_Bytes response ;;
  code <- Response_Status response ;;
  if (code =? StatusNoContent)%Z then
    fmt_Printf ("Limited support reason deleted successfully" ++ nl) ;;
    ret None
  else if negb (valid_json w body) then
    ret (Some "server returned invalid JSON")
  else
    let '(badReply, err) := unmarshal w body badReply in
    match err with
    | Some err =>
        ret (Some ("cannot parse the error JSON meessage: " ++ verb_q err))
    | None => ret None
    end.

(** The end of [run]: build the delete request, send it, interpret the
    response.  Each failure is printed and the next step is taken. *)
Definition run_delete (o : deleteOptions) (connection : Connection)
    (cluster : Cluster) : proc (option error) :=
  '(deleteRequest, err) <-
    createDeleteRequest connection cluster (limitedSupportReasonID o) ;;
  if_err err (fun err =>
    fmt_Printf ("failed post call " ++ verb_q err ++ nl)) ;;
  '(deleteResponse, err) <- sendRequest deleteRequest ;;
  if_err err (fun err =>
    fmt_Printf ("Failed to get delete call response: " ++ verb_q err ++ nl)) ;;
  err <- checkDelete deleteResponse ;;
  if_err err (fun err =>
    fmt_Printf ("check for delete call failed: " ++ verb_q err)) ;;
  ret None.

(** The part of [run] that follows [defer connection.Close()]. *)
Definition run_connected (pkg : Package) (o : deleteOptions)
    (connection : Connection) : proc (option error) :=
  if isDryRun pkg then ret None
  else
    confirmSend ;;
    clusterResponse <- Get_SendContext connection (clusterID o) ;;
    match clusterResponse with
    | inr err =>
        fmt_Fprintf_Stderr ("Can't retrieve cluster: " ++ err ++ nl) ;;
        os_Exit 1
    | inl cluster => run_delete o connection cluster
    end.

(** [(o *deleteOptions) run()] *)
Definition run (pkg : Package) (o : deleteOptions) : proc (option error) :=
  token <- os_Getenv "OCM_TOKEN" ;;
  token <-
    (if String.eqb token EmptyString then
       '(ocmToken, err) <- GetOCMAccessToken ;;
       if_err err (fun _ =>
         log_Fatalf fatal_no_token ;;
         os_Exit 1) ;;
       deref_string ocmToken
     else ret token) ;;
  built <- Build token ;;
  match built with
  | inr err =>
      fmt_Fprintf_Stderr ("Can't build connection: " ++ err ++ nl) ;;
      os_Exit 1
  | inl connection =>
      defer (Close connection) (run_connected pkg o connection)
  end.

End Calls.

(** ** Auxiliary notions for the statements *)

(** [needle] occurs in [hay]. *)
Definition contains (needle hay : string) : Prop :=
  exists pre post, hay = pre ++ needle ++ post.

(** The calls that make up the delete: creating the request, giving it its
    path, sending it. *)
Definition is_delete_call (e : event) : bool :=
  match e with
  | EDelete _ | EApplyPathArg _ _ | ESendRequest _ => true
  | _ => false
  end.

(** The calls that resolve the credentials. *)
Definition is_credential_call (e : event) : bool :=
  match e with
  | EGetenv _ | EGetOCMAccessToken => true
  | _ => false
  end.

(** What a dry run may do: resolve credentials, build and close the
    session, report a fatal failure. *)
Definition is_session_call (e : event) : bool :=
  match e with
  | EGetenv _ | EGetOCMAccessToken | ELogFatalf _
  | EBuild _ _ | EClose _ | EStderr _ => true
  | _ => false
  end.

Definition is_close (e : event) : bool :=
  match e with
  | EClose _ => true
  | _ => false
  end.

Definition is_build (e : event) : bool :=
  match e with
  | EBuild _ _ => true
  | _ => false
  end.

Definition not_build (e : event) : bool := negb (is_build e).

Definition is_confirm (e : event) : bool :=
  match e with
  | EConfirmSend => true
  | _ => false
  end.

Definition is_cluster_lookup (e : event) : bool :=
  match e with
  | EClusterGet _ _ => true
  | _ => false
  end.

(** A monitor for the order of calls: reading the trace from the left, a
    delete call is accepted only once [confirmSend] has been seen. *)
Fixpoint confirmed_first (seen : bool) (t : list event) : bool :=
  match t with
  | [] => true
  | e :: t' =>
      if is_delete_call e then seen && confirmed_first seen t'
      else confirmed_first (seen || is_confirm e) t'
  end.

(** ** Sample worlds *)

Definition dq : string := String "034"%char EmptyString.

(** [strconv.Quote] on text that needs no escaping. *)
Definition plain_quote (s : string) : string := dq ++ s ++ dq.

(** A path-argument encoder that takes the path as it is. *)
Definition set_path (r : Request) (target : string) : Request :=
  mkRequest (transport r) (method r) target (query r).

Definition body_is (b : bytes) (s : string) : bool :=
  String.eqb (string_of_list_byte b) s.

(** The JSON decoder on the bodies used below: an empty object, a number,
    [null], and text that is not JSON. *)
Definition sample_valid_json (b : bytes) : bool :=
  body_is b "{}" || body_is b "42" || body_is b "null".

Definition sample_unmarshal (b : bytes) (v : option BadReply)
    : option BadReply * option error :=
  if body_is b "{}" then (Some (mkBadReply []), None)
  else if body_is b "null" then (None, None)
  else if body_is b "42" then
    (v, Some "json: cannot unmarshal number into Go value of type support.BadReply")
  else (v, Some "invalid character").

(** The service answers the delete with [code] and [text]; the token comes
    from the environment, the user confirms, the cluster exists. *)
Definition world_reply (code : Z) (text : string) : World :=
  {| environ := fun name => if String.eqb name "OCM_TOKEN" then "t0k3n" else EmptyString;
     ocm_access_token := (None, Some "ocm is not configured");
     build_result := fun token => inl (mkConnection token);
     confirm_result := Returned None;
     cluster_get_result := fun _ id => inl (mkCluster id "ext-7" "prod");
     apply_path_arg := fun r target => (set_path r target, None);
     send_result := fun r =>
       match r with
       | Some _ => Returned (Some (mkResponse code (list_byte_of_string text)), None)
       | None => Panicked nil_dereference
       end;
     valid_json := sample_valid_json;
     unmarshal := sample_unmarshal;
     quote := plain_quote |}.

(** As [world_reply], but the request cannot be sent. *)
Definition world_send_fails : World :=
  {| environ := environ (world_reply 204 EmptyString);
     ocm_access_token := ocm_access_token (world_reply 204 EmptyString);
     build_result := build_result (world_reply 204 EmptyString);
     confirm_result := Returned None;
     cluster_get_result := cluster_get_result (world_reply 204 EmptyString);
     apply_path_arg := apply_path_arg (world_reply 204 EmptyString);
     send_result := fun _ => Returned (None, Some "cannot send request: EOF");
     valid_json := sample_valid_json;
     unmarshal := sample_unmarshal;
     quote := plain_quote |}.

(** As [world_reply], but the cluster cannot be retrieved. *)
Definition world_no_cluster : World :=
  {| environ := environ (world_reply 204 EmptyString);
     ocm_access_token := ocm_access_token (world_reply 204 EmptyString);
     build_result := build_result (world_reply 204 EmptyString);
     confirm_result := Returned None;
     cluster_get_result := fun _ _ => inr "status is 404";
     apply_path_arg := apply_path_arg (world_reply 204 EmptyString);
     send_result := send_result (world_reply 204 EmptyString);
     valid_json := sample_valid_json;
     unmarshal := sample_unmarshal;
     quote := plain_quote |}.

Definition live : Package := mkPackage false.
Definition dry : Package := mkPackage true.

Definition sample_options : deleteOptions :=
  mkDeleteOptions EmptyString false "1a2b3c" "r-42".

(** What the sample worlds hand to [run] on the way. *)
Definition sample_connection : Connection := mkConnection "t0k3n".

Definition sample_cluster : Cluster := mkCluster "1a2b3c" "ext-7" "prod".

Definition sample_target : string :=
  "/api/clusters_mgmt/v1/clusters/1a2b3c/limited_support_reasons/r-42".

Definition sample_request : Request :=
  mkRequest sample_connection MethodDelete sample_target [].

(** ** The command entry point *)

(** [globalflags.GlobalOptions] is declared outside [delete.go], which
    reads its field [Output] only. *)
Record GlobalOptions := mkGlobalOptions {
  Output : string
}.

(** A [*deleteOptions] with what it points to: the fields [run] reads and
    the pointer [GlobalOptions], which may be nil. *)
Record boundOptions := mkBoundOptions {
  fields : deleteOptions;
  globalOptions : option GlobalOptions
}.

(** The answers of cobra and of kubectl's [cmdutil]: the error
    [UsageErrorf] builds from a message, the text [CheckErr] prints for an
    error, and the error of [cobra.ExactArgs] for the number of arguments
    wanted and the number received. *)
Record Cli := mkCli {
  usage_error : string -> error;
  fatal_message : error -> string;
  args_error : nat -> nat -> error
}.

(** What the flag parser has stored when the command runs, each value in
    the variable its flag is bound to: [--limited-support-reason-id] in
    [ops.limitedSupportReasonID], [--dry-run] in the package variable
    [isDryRun], [--verbose] in [ops.verbose]. *)
Record Flags := mkFlags {
  limited_support_reason_id : string;
  dry_run : bool;
  verbose_flag : bool
}.

(** A [*cobra.Command], with the fields [newCmddelete] sets. *)
Record Command := mkCommand {
  Use : string;
  Short : string;
  Args : list string -> option error;
  DisableAutoGenTag : bool;
  Run : Flags -> list string -> proc unit
}.

Definition index_out_of_range : string :=
  "runtime error: index out of range".

(** [newDeleteOptions]: every field of its own is left at its zero value. *)
Definition newDeleteOptions (globalOpts : option GlobalOptions) : boundOptions :=
  mkBoundOptions (mkDeleteOptions EmptyString false EmptyString EmptyString)
    globalOpts.

(** [args[i]] *)
Definition arg_at (args : list string) (i : nat) : proc string :=
  match nth_error args i with
  | Some a => ret a
  | None => panic index_out_of_range
  end.

(** [o.GlobalOptions.Output] *)
Definition GlobalOptions_Output (p : option GlobalOptions) : proc string :=
  match p with
  | Some g => ret (Output g)
  | None => panic nil_dereference
  end.

(** [(o *deleteOptions) complete(cmd, args)]: the options after the call
    and the error returned. *)
Definition complete (cli : Cli) (o : boundOptions) (args : list string)
    : proc (boundOptions * option error) :=
  if negb (Nat.eqb (length args) 1) then
    ret (o, Some (usage_error cli "Provide exactly one internal cluster ID"))
  else
    arg0 <- arg_at args 0 ;;
    let o :=
      mkBoundOptions
        (mkDeleteOptions (output (fields o)) (verbose (fields o)) arg0
           (limitedSupportReasonID (fields o)))
        (globalOptions o) in
    out <- GlobalOptions_Output (globalOptions o) ;;
    let o :=
      mkBoundOptions
        (mkDeleteOptions out (verbose (fields o))
           (clusterID (fields o)) (limitedSupportReasonID (fields o)))
        (globalOptions o) in
    ret (o, None).

(** [cmdutil.CheckErr]: nothing on nil; otherwise the error is printed to
    standard error and the process ends with status 1. *)
Definition CheckErr (cli : Cli) (err : option error) : proc unit :=
  if_err err (fun err =>
    fmt_Fprintf_Stderr (fatal_message cli err) ;;
    os_Exit 1).

(** [cobra.ExactArgs(n)] *)
Definition ExactArgs (cli : Cli) (n : nat) (args : list string) : option error :=
  if negb (Nat.eqb (length args) n) then Some (args_error cli n (length args))
  else None.

(** [newCmddelete]: the command, with its [Run] function applied to what
    the flag parser stored and to the positional arguments.  The
    registration of the flags is cobra's; what is kept of it is the
    variable each flag is bound to. *)
Definition newCmddelete (w : World) (cli : Cli)
    (globalOpts : option GlobalOptions) : Command :=
  let ops := newDeleteOptions globalOpts in
  {| Use := "delete CLUSTER_ID";
     Short := "Delete specified limited support reason for a given cluster";
     Args := ExactArgs cli 1;
     DisableAutoGenTag := true;
     Run := fun flags args =>
       let ops :=
         mkBoundOptions
           (mkDeleteOptions (output (fields ops)) (verbose_flag flags)
              (clusterID (fields ops)) (limited_support_reason_id flags))
           (globalOptions ops) in
       let pkg := mkPackage (dry_run flags) in
       '(ops, err) <- complete cli ops args ;;
       CheckErr cli err ;;
       err <- run w pkg (fields ops) ;;
       CheckErr cli err |}.

(** ** A path encoder that parses its argument *)

(** [cut sep s]: [s] up to the first [sep], and what follows it. *)
Fixpoint cut (sep : ascii) (s : string) : string * string :=
  match s with
  | EmptyString => (EmptyString, EmptyString)
  | String a s' =>
      if Ascii.eqb a sep then (EmptyString, s')
      else let (before, after) := cut sep s' in (String a before, after)
  end.

(** The pieces of [s] between the occurrences of [sep]. *)
Fixpoint pieces (sep : ascii) (s : string) : list string :=
  match s with
  | EmptyString => [EmptyString]
  | String a s' =>
      if Ascii.eqb a sep then EmptyString :: pieces sep s'
      else
        match pieces sep s' with
        | p :: ps => String a p :: ps
        | [] => [String a EmptyString]
        end
  end.

(** The parameters of a query [name=value&name=value]. *)
Definition query_parameters (q : string) : list (string * string) :=
  filter (fun nv => negb (String.eqb (fst nv) EmptyString))
    (map (cut "=") (pieces "&" q)).

(** [arguments.ApplyPathArg] hands its argument to [url.Parse] and gives
    the request the path and the query parameters of the result: what
    follows the first [#] is dropped, the path ends at the first [?] and
    the rest is the query.  Percent escapes, which [url.Parse] decodes or
    rejects, are not treated: the targets used below have none. *)
Definition parsing_path_arg (r : Request) (target : string)
    : Request * option error :=
  let (rest, _) := cut "#" target in
  let (p, q) := cut "?" rest in
  (mkRequest (transport r) (method r) p (query r ++ query_parameters q)%list,
   None).

(** As [world_reply], with the parsing encoder. *)
Definition world_parsing : World :=
  {| environ := environ (world_reply 204 EmptyString);
     ocm_access_token := ocm_access_token (world_reply 204 EmptyString);
     build_result := build_result (world_reply 204 EmptyString);
     confirm_result := Returned None;
     cluster_get_result := cluster_get_result (world_reply 204 EmptyString);
     apply_path_arg := parsing_path_arg;
     send_result := send_result (world_reply 204 EmptyString);
     valid_json := sample_valid_json;
     unmarshal := sample_unmarshal;
     quote := plain_quote |}.

(** ** Further notions for the statements *)

Definition is_token_fallback (e : event) : bool :=
  match e with
  | EGetOCMAccessToken => true
  | _ => false
  end.

(** The calls [run] makes once it has its session. *)
Definition after_session (e : event) : bool :=
  match e with
  | EConfirmSend | EClusterGet _ _ | EDelete _ | EApplyPathArg _ _
  | ESendRequest _ | EStdout _ | EStderr _ => true
  | _ => false
  end.

(** The world [w] with another answer of [confirmSend]. *)
Definition answer_confirm (w : World) (r : outcome (option error)) : World :=
  {| environ := environ w;
     ocm_access_token := ocm_access_token w;
     build_result := build_result w;
     confirm_result := r;
     cluster_get_result := cluster_get_result w;
     apply_path_arg := apply_path_arg w;
     send_result := send_result w;
     valid_json := valid_json w;
     unmarshal := unmarshal w;
     quote := quote w |}.

(** The path of the delete call for a cluster and a reason. *)
Definition delete_target (cluster : Cluster) (reasonID : string) : string :=
  "/api/clusters_mgmt/v1/clusters/" ++ ID cluster
    ++ "/limited_support_reasons/" ++ reasonID.

(** A world where the token comes from the fallback lookup. *)
Definition world_fallback : World :=
  {| environ := fun _ => EmptyString;
     ocm_access_token := (Some "f4llb4ck", None);
     build_result := fun token => inl (mkConnection token);
     confirm_result := Returned None;
     cluster_get_result := fun _ id => inl (mkCluster id "ext-7" "prod");
     apply_path_arg := fun r target => (set_path r target, None);
     send_result := send_result (world_reply 204 EmptyString);
     valid_json := sample_valid_json;
     unmarshal := sample_unmarshal;
     quote := plain_quote |}.

(** A world with no token at all. *)
Definition world_no_token : World :=
  {| environ := fun _ => EmptyString;
     ocm_access_token := (None, Some "ocm is not configured");
     build_result := fun token => inl (mkConnection token);
     confirm_result := Returned None;
     cluster_get_result := fun _ id => inl (mkCluster id "ext-7" "prod");
     apply_path_arg := fun r target => (set_path r target, None);
     send_result := send_result (world_reply 204 EmptyString);
     valid_json := sample_valid_json;
     unmarshal := sample_unmarshal;
     quote := plain_quote |}.

(** A world where the session cannot be built. *)
Definition world_no_session : World :=
  {| environ := environ (world_reply 204 EmptyString);
     ocm_access_token := ocm_access_token (world_reply 204 EmptyString);
     build_result := fun _ => inr "token is expired";
     confirm_result := Returned None;
     cluster_get_result := fun _ id => inl (mkCluster id "ext-7" "prod");
     apply_path_arg := fun r target => (set_path r target, None);
     send_result := send_result (world_reply 204 EmptyString);
     valid_json := sample_valid_json;
     unmarshal := sample_unmarshal;
     quote := plain_quote |}.

(** A world where the cluster is known under a canonical ID that differs
    from the identifier it is looked up with. *)
Definition world_alias : World :=
  {| environ := environ (world_reply 204 EmptyString);
     ocm_access_token := ocm_access_token (world_reply 204 EmptyString);
     build_result := build_result (world_reply 204 EmptyString);
     confirm_result := Returned None;
     cluster_get_result := fun _ _ => inl (mkCluster "c4n0n1c4l" "ext-7" "prod");
     apply_path_arg := fun r target => (set_path r target, None);
     send_result := send_result (world_reply 204 EmptyString);
     valid_json := sample_valid_json;
     unmarshal := sample_unmarshal;
     quote := plain_quote |}.

(** Options that name the cluster by an alias. *)
Definition alias_options : deleteOptions :=
  mkDeleteOptions EmptyString false "my-cluster" "r-42".

Definition sample_cli : Cli :=
  {| usage_error := fun msg =>
       msg ++ nl ++ "See 'osdctl cluster support delete -h' for help and examples";
     fatal_message := fun err => "error: " ++ err ++ nl;
     args_error := fun wanted received =>
       "accepts " ++ NilEmpty.string_of_uint (Nat.to_uint wanted)
         ++ " arg(s), received "
         ++ NilEmpty.string_of_uint (Nat.to_uint received) |}.

Definition sample_flags : Flags := mkFlags "r-42" false false.

(** ** The response interpreter *)

Lemma contains_suffix (prefix s : string) : contains s (prefix ++ s).
Proof.
  exists prefix, EmptyString.
  induction prefix as [|a prefix IH]; simpl.
  - induction s as [|b s IHs]; simpl; [reflexivity | now rewrite <- IHs].
  - f_equal. exact IH.
Qed.

Lemma contains_refl (s : string) : contains s s.
Proof. exact (contains_suffix EmptyString s). Qed.

(** On a response that is there, [checkDelete] is a case analysis on the
    status, the validity of the body and the decoding. *)
Lemma checkDelete_Some (w : World) (r : Response) :
  checkDelete w (Some r) =
    if (status r =? StatusNoContent)%Z then
      ([EStdout ("Limited support reason deleted successfully" ++ nl)], Returned None)
    else if valid_json w (body r) then
      match snd (unmarshal w (body r) None) with
      | Some err =>
          ([], Returned (Some ("cannot parse the error JSON meessage: " ++ quote w err)))
      | None => ([], Returned None)
      end
    else ([], Returned (Some "server returned invalid JSON")).
Proof.
  unfold checkDelete. cbn.
  destruct (status r =? StatusNoContent)%Z; [reflexivity|].
  destruct (valid_json w (body r)); cbn; [|reflexivity].
  destruct (unmarshal w (body r) None) as [v [err|]]; reflexivity.
Qed.

(** C1: a response whose status is not 204 and whose body is valid JSON
    that decodes into the error-shape record makes [checkDelete] return no
    error and print nothing, whatever was decoded. *)
Theorem checkDelete_discards_bad_reply (w : World) (r : Response)
    (decoded : option BadReply) :
  status r <> StatusNoContent ->
  valid_json w (body r) = true ->
  unmarshal w (body r) None = (decoded, None) ->
  checkDelete w (Some r) = ([], Returned None).
Proof.
  intros Hs Hv Hu. rewrite checkDelete_Some.
  apply Z.eqb_neq in Hs. rewrite Hs, Hv, Hu. reflexivity.
Qed.

(** C2: on status 204, whatever the body, [checkDelete] prints
    "Limited support reason deleted successfully" and returns no error. *)
Theorem checkDelete_no_content (w : World) (r : Response) :
  status r = StatusNoContent ->
  checkDelete w (Some r) =
    ([EStdout ("Limited support reason deleted successfully" ++ nl)], Returned None).
Proof.
  intros Hs. rewrite checkDelete_Some.
  apply Z.eqb_eq in Hs. rewrite Hs. reflexivity.
Qed.

(** C6: a response whose status is not 204 and whose body is not valid
    JSON makes [checkDelete] return an error containing
    "server returned invalid JSON". *)
Theorem checkDelete_invalid_json (w : World) (r : Response) :
  status r <> StatusNoContent ->
  valid_json w (body r) = false ->
  exists err,
    checkDelete w (Some r) = ([], Returned (Some err)) /\
    contains "server returned invalid JSON" err.
Proof.
  intros Hs Hv. exists "server returned invalid JSON". split.
  - rewrite checkDelete_Some. apply Z.eqb_neq in Hs. rewrite Hs, Hv. reflexivity.
  - apply contains_refl.
Qed.

(** C7: a response whose status is not 204 and whose body is valid JSON
    that does not decode into the error-shape record makes [checkDelete]
    return a parse error that embeds the decoder's error. *)
Theorem checkDelete_unparseable (w : World) (r : Response)
    (partial : option BadReply) (cause : error) :
  status r <> StatusNoContent ->
  valid_json w (body r) = true ->
  unmarshal w (body r) None = (partial, Some cause) ->
  exists err,
    checkDelete w (Some r) = ([], Returned (Some err)) /\
    err = "cannot parse the error JSON meessage: " ++ quote w cause /\
    contains (quote w cause) err.
Proof.
  intros Hs Hv Hu. eexists. split; [|split; [reflexivity|]].
  - rewrite checkDelete_Some. apply Z.eqb_neq in Hs. rewrite Hs, Hv, Hu. reflexivity.
  - apply contains_suffix.
Qed.

(** ** The monad *)

Lemma bind_trace {A B : Type} (m : proc A) (k : A -> proc B) :
  fst (bind m k) =
    (fst m ++ match snd m with Returned a => fst (k a) | _ => [] end)%list.
Proof.
  destruct m as [t [a|code|msg]]; cbn.
  - destruct (k a); reflexivity.
  - now rewrite app_nil_r.
  - now rewrite app_nil_r.
Qed.

Lemma bind_outcome {A B : Type} (m : proc A) (k : A -> proc B) :
  snd (bind m k) =
    match snd m with
    | Returned a => snd (k a)
    | Exited code => Exited code
    | Panicked msg => Panicked msg
    end.
Proof.
  destruct m as [t [a|code|msg]]; cbn; try reflexivity.
  destruct (k a); reflexivity.
Qed.

(** A deferred [Close] is appended to the trace unless the process exits. *)
Lemma defer_Close {A : Type} (c : Connection) (rest : proc A) :
  defer (Close c) rest =
    match snd rest with
    | Exited code => (fst rest, Exited code)
    | out => ((fst rest ++ [EClose c])%list, out)
    end.
Proof. destruct rest as [t [a|code|msg]]; reflexivity. Qed.

(** ** The orchestrator, step by step *)

(** Up to [defer connection.Close()], [run] resolves the credentials and
    builds the session; it goes on only with a session. *)
Lemma run_session (w : World) (pkg : Package) (o : deleteOptions) :
  exists pre,
    forallb is_credential_call pre = true /\
    ((exists token c,
        build_result w token = inl c /\
        run w pkg o =
          ((pre ++ EBuild token (inl c)
                :: fst (defer (Close c) (run_connected w pkg o c)))%list,
           snd (defer (Close c) (run_connected w pkg o c)))) \/
     (exists token err,
        run w pkg o =
          ((pre ++ [EBuild token (inr err);
                    EStderr ("Can't build connection: " ++ err ++ nl)])%list,
           Exited 1)) \/
     run w pkg o = ((pre ++ [ELogFatalf fatal_no_token])%list, Exited 1) \/
     run w pkg o = (pre, Panicked nil_dereference)).
Proof.
  unfold run, os_Getenv, GetOCMAccessToken, Build, log_Fatalf,
    fmt_Fprintf_Stderr, deref_string, if_err.
  destruct (String.eqb (environ w "OCM_TOKEN") EmptyString) eqn:Henv.
  - exists [EGetenv "OCM_TOKEN"; EGetOCMAccessToken]. split; [reflexivity|].
    destruct (ocm_access_token w) as [[tok|] [err|]] eqn:Htok.
    + right; right; left. cbn. rewrite Henv. cbn. rewrite ?Htok. reflexivity.
    + destruct (build_result w tok) as [c|err] eqn:Hb.
      * left. exists tok, c. split; [exact Hb|].
        cbn. rewrite Henv. cbn. rewrite ?Htok. cbn. rewrite Hb.
        destruct (defer (Close c) (run_connected w pkg o c)); reflexivity.
      * right; left. exists tok, err.
        cbn. rewrite Henv. cbn. rewrite ?Htok. cbn. rewrite Hb. reflexivity.
    + right; right; left. cbn. rewrite Henv. cbn. rewrite ?Htok. reflexivity.
    + right; right; right. cbn. rewrite Henv. cbn. rewrite ?Htok. reflexivity.
  - exists [EGetenv "OCM_TOKEN"]. split; [reflexivity|].
    destruct (build_result w (environ w "OCM_TOKEN")) as [c|err] eqn:Hb.
    + left. exists (environ w "OCM_TOKEN"), c. split; [exact Hb|].
      cbn. rewrite Henv. cbn. rewrite Hb.
      destruct (defer (Close c) (run_connected w pkg o c)); reflexivity.
    + right; left. exists (environ w "OCM_TOKEN"), err.
      cbn. rewrite Henv. cbn. rewrite Hb. reflexivity.
Qed.

Lemma run_connected_dry (w : World) (pkg : Package) (o : deleteOptions)
    (c : Connection) :
  isDryRun pkg = true -> run_connected w pkg o c = ([], Returned None).
Proof. intros Hd. unfold run_connected. rewrite Hd. reflexivity. Qed.

(** Without the dry-run flag the first thing [run] does with its session
    is to ask for confirmation. *)
Lemma run_connected_confirms (w : World) (pkg : Package) (o : deleteOptions)
    (c : Connection) :
  isDryRun pkg = false ->
  exists rest, fst (run_connected w pkg o c) = EConfirmSend :: rest.
Proof.
  intros Hd. unfold run_connected. rewrite Hd.
  rewrite bind_trace. unfold confirmSend. rewrite bind_trace. cbn.
  eexists. reflexivity.
Qed.

Lemma run_connected_lookup_fails (w : World) (pkg : Package)
    (o : deleteOptions) (c : Connection) (x : option error) (err : error) :
  isDryRun pkg = false ->
  confirm_result w = Returned x ->
  cluster_get_result w c (clusterID o) = inr err ->
  run_connected w pkg o c =
    ([EConfirmSend; EClusterGet c (clusterID o);
      EStderr ("Can't retrieve cluster: " ++ err ++ nl)], Exited 1).
Proof.
  intros Hd Hc Hg. unfold run_connected, confirmSend, Get_SendContext.
  rewrite Hd. cbn. rewrite Hc. cbn. rewrite Hg. reflexivity.
Qed.

Lemma run_connected_lookup_ok (w : World) (pkg : Package)
    (o : deleteOptions) (c : Connection) (x : option error) (cl : Cluster) :
  isDryRun pkg = false ->
  confirm_result w = Returned x ->
  cluster_get_result w c (clusterID o) = inl cl ->
  run_connected w pkg o c =
    (EConfirmSend :: EClusterGet c (clusterID o) :: fst (run_delete w o c cl),
     snd (run_delete w o c cl)).
Proof.
  intros Hd Hc Hg. unfold run_connected, confirmSend, Get_SendContext.
  rewrite Hd. cbn -[run_delete]. rewrite Hc. cbn -[run_delete]. rewrite Hg.
  destruct (run_delete w o c cl); reflexivity.
Qed.

(** ** The order of calls *)

Lemma confirmed_first_seen (t : list event) : confirmed_first true t = true.
Proof.
  induction t as [|e t IH]; cbn; [reflexivity|].
  destruct (is_delete_call e); exact IH.
Qed.

Lemma confirmed_first_credentials (seen : bool) (pre t : list event) :
  forallb is_credential_call pre = true ->
  confirmed_first seen (pre ++ t) = confirmed_first seen t.
Proof.
  induction pre as [|e pre IH]; cbn; [reflexivity|].
  intros H. apply andb_true_iff in H. destruct H as [He Hpre].
  destruct e; try discriminate He; cbn; rewrite orb_false_r; exact (IH Hpre).
Qed.

Lemma confirmed_first_sound (pre : list event) :
  forall (seen : bool) (e : event) (post : list event),
    confirmed_first seen (pre ++ e :: post) = true ->
    is_delete_call e = true ->
    seen = true \/ In EConfirmSend pre.
Proof.
  induction pre as [|a pre IH]; intros seen e post H He; cbn in H.
  - rewrite He in H. apply andb_true_iff in H. left. exact (proj1 H).
  - destruct (is_delete_call a) eqn:Ha.
    + apply andb_true_iff in H. left. exact (proj1 H).
    + destruct (IH _ _ _ H He) as [Hs|Hin].
      * apply orb_true_iff in Hs. destruct Hs as [Hs|Hs]; [now left|].
        right. left. destruct a; try discriminate Hs. reflexivity.
      * right. right. exact Hin.
Qed.

Lemma run_confirmed_first (w : World) (pkg : Package) (o : deleteOptions) :
  confirmed_first false (fst (run w pkg o)) = true.
Proof.
  destruct (run_session w pkg o) as
    (pre & Hpre & [(token & c & _ & E) | [(token & err & E) | [E | E]]]);
    rewrite E; cbn [fst]; rewrite ?(confirmed_first_credentials _ _ _ Hpre);
    try reflexivity.
  - cbn [confirmed_first is_delete_call is_confirm orb].
    rewrite defer_Close.
    destruct (isDryRun pkg) eqn:Hd.
    + rewrite (run_connected_dry _ _ _ _ Hd). reflexivity.
    + destruct (run_connected_confirms w pkg o c Hd) as [rest Hr].
      destruct (snd (run_connected w pkg o c)); cbn [fst]; rewrite Hr;
        cbn; apply confirmed_first_seen.
  - rewrite <- (app_nil_r pre) at 1.
    rewrite (confirmed_first_credentials _ _ _ Hpre). reflexivity.
Qed.

(** C8: no call that builds or sends the delete request takes place
    before [confirmSend] has been called. *)
Theorem confirm_before_delete (w : World) (pkg : Package) (o : deleteOptions)
    (pre post : list event) (e : event) :
  fst (run w pkg o) = (pre ++ e :: post)%list ->
  is_delete_call e = true ->
  In EConfirmSend pre.
Proof.
  intros Ht He.
  pose proof (run_confirmed_first w pkg o) as H. rewrite Ht in H.
  destruct (confirmed_first_sound _ _ _ _ H He) as [Hs|Hin];
    [discriminate Hs | exact Hin].
Qed.

(** ** Events that cannot occur *)

Lemma forallb_bind {A B : Type} (P : event -> bool) (m : proc A)
    (k : A -> proc B) :
  forallb P (fst m) = true ->
  (forall a, forallb P (fst (k a)) = true) ->
  forallb P (fst (bind m k)) = true.
Proof.
  intros Hm Hk. rewrite bind_trace, forallb_app, Hm.
  destruct (snd m); [apply Hk | reflexivity | reflexivity].
Qed.

(** Walks through a computation bind by bind; [known] closes the calls
    that have their own lemma. *)
Ltac walk known :=
  repeat first
    [ reflexivity
    | known
    | apply forallb_bind; [|intros]
    | match goal with
      | |- context [match ?x with _ => _ end] => destruct x
      end ].

Lemma checkDelete_no_build (w : World) (response : option Response) :
  forallb not_build (fst (checkDelete w response)) = true.
Proof.
  unfold checkDelete, Response_Bytes, Response_Status, fmt_Printf, panic.
  walk fail.
Qed.

Lemma run_delete_no_build (w : World) (o : deleteOptions) (c : Connection)
    (cl : Cluster) :
  forallb not_build (fst (run_delete w o c cl)) = true.
Proof.
  unfold run_delete, createDeleteRequest, Delete, ApplyPathArg, sendRequest,
    if_err, fmt_Printf.
  walk ltac:(apply checkDelete_no_build).
Qed.

Lemma run_connected_no_build (w : World) (pkg : Package) (o : deleteOptions)
    (c : Connection) :
  forallb not_build (fst (run_connected w pkg o c)) = true.
Proof.
  unfold run_connected, confirmSend, Get_SendContext, fmt_Fprintf_Stderr.
  walk ltac:(apply run_delete_no_build).
Qed.

Lemma credentials_no_build (pre : list event) (token : string)
    (built : Connection + error) :
  forallb is_credential_call pre = true -> ~ In (EBuild token built) pre.
Proof.
  intros H Hin. rewrite forallb_forall in H.
  specialize (H _ Hin). discriminate H.
Qed.

(** A successful [Build] in the trace of [run] is the one that opens the
    session [run] goes on with. *)
Lemma run_built (w : World) (pkg : Package) (o : deleteOptions)
    (token : string) (c : Connection) :
  In (EBuild token (inl c)) (fst (run w pkg o)) ->
  exists pre,
    forallb is_credential_call pre = true /\
    run w pkg o =
      ((pre ++ EBuild token (inl c)
            :: fst (defer (Close c) (run_connected w pkg o c)))%list,
       snd (defer (Close c) (run_connected w pkg o c))).
Proof.
  intros Hin.
  destruct (run_session w pkg o) as
    (pre & Hpre & [(token' & c' & _ & E) | [(token' & err & E) | [E | E]]]);
    rewrite E in Hin; cbn [fst] in Hin.
  - apply in_app_or in Hin. destruct Hin as [Hin | [Heq | Hin]].
    + now apply credentials_no_build in Hin.
    + injection Heq as -> ->. exists pre. split; [exact Hpre | exact E].
    + exfalso. rewrite defer_Close in Hin.
      pose proof (run_connected_no_build w pkg o c') as Hnb.
      rewrite forallb_forall in Hnb.
      destruct (snd (run_connected w pkg o c')); cbn [fst] in Hin;
        try (apply in_app_or in Hin; destruct Hin as [Hin | [Hin | []]];
             [|discriminate Hin]);
        specialize (Hnb _ Hin); discriminate Hnb.
  - apply in_app_or in Hin. destruct Hin as [Hin | [Heq | [Heq | []]]];
      [now apply credentials_no_build in Hin | discriminate Heq | discriminate Heq].
  - apply in_app_or in Hin. destruct Hin as [Hin | [Heq | []]];
      [now apply credentials_no_build in Hin | discriminate Heq].
  - now apply credentials_no_build in Hin.
Qed.

(** ** Dry run *)

Lemma session_call_quiet (e : event) :
  is_session_call e = true ->
  is_confirm e = false /\ is_cluster_lookup e = false /\ is_delete_call e = false.
Proof. destruct e; intros H; try discriminate H; repeat split. Qed.

Lemma credentials_are_session_calls (pre : list event) :
  forallb is_credential_call pre = true -> forallb is_session_call pre = true.
Proof.
  induction pre as [|e pre IH]; cbn; [reflexivity|].
  intros H. apply andb_true_iff in H. destruct H as [He Hpre].
  rewrite (IH Hpre). destruct e; try discriminate He; reflexivity.
Qed.

Lemma run_dry_session_calls (w : World) (pkg : Package) (o : deleteOptions) :
  isDryRun pkg = true -> forallb is_session_call (fst (run w pkg o)) = true.
Proof.
  intros Hd.
  destruct (run_session w pkg o) as
    (pre & Hpre & [(token & c & _ & E) | [(token & err & E) | [E | E]]]);
    rewrite E; cbn [fst]; rewrite ?forallb_app;
    rewrite (credentials_are_session_calls _ Hpre); try reflexivity.
  rewrite (run_connected_dry _ _ _ _ Hd). reflexivity.
Qed.

(** C4: with the dry-run flag set, [run] asks for no confirmation, looks
    up no cluster and makes no delete call; once the session is built it
    closes it, does nothing else and returns no error. *)
Theorem dry_run_stops_after_session (w : World) (pkg : Package)
    (o : deleteOptions) :
  isDryRun pkg = true ->
  (forall e, In e (fst (run w pkg o)) ->
     is_confirm e = false /\ is_cluster_lookup e = false /\
     is_delete_call e = false) /\
  (forall token c, In (EBuild token (inl c)) (fst (run w pkg o)) ->
     exists pre,
       forallb is_credential_call pre = true /\
       run w pkg o =
         ((pre ++ [EBuild token (inl c); EClose c])%list, Returned None)).
Proof.
  intros Hd. split.
  - intros e Hin. apply session_call_quiet.
    pose proof (run_dry_session_calls w pkg o Hd) as H.
    rewrite forallb_forall in H. exact (H e Hin).
  - intros token c Hin.
    destruct (run_built w pkg o token c Hin) as (pre & Hpre & E).
    exists pre. split; [exact Hpre|].
    rewrite E, (run_connected_dry _ _ _ _ Hd). reflexivity.
Qed.

(** ** Release of the session *)

(** When [run] returns or panics with a session, closing the session is
    the last thing it does. *)
Lemma run_closes_unless_exit (w : World) (pkg : Package) (o : deleteOptions)
    (token : string) (c : Connection) :
  In (EBuild token (inl c)) (fst (run w pkg o)) ->
  (forall code, snd (run w pkg o) <> Exited code) ->
  exists pre, fst (run w pkg o) = (pre ++ [EClose c])%list.
Proof.
  intros Hin Hout.
  destruct (run_built w pkg o token c Hin) as (pre & _ & E).
  rewrite E in Hout |- *. cbn [fst snd] in *. rewrite defer_Close in Hout |- *.
  destruct (snd (run_connected w pkg o c)) as [a|code|msg]; cbn [fst snd] in *.
  - exists (pre ++ EBuild token (inl c) :: fst (run_connected w pkg o c))%list.
    now rewrite <- app_assoc.
  - now destruct (Hout code).
  - exists (pre ++ EBuild token (inl c) :: fst (run_connected w pkg o c))%list.
    now rewrite <- app_assoc.
Qed.

(** When the cluster cannot be retrieved, [run] ends the process with
    status 1 and the session is never closed. *)
Lemma run_lookup_failure_skips_close (w : World) (pkg : Package)
    (o : deleteOptions) (token : string) (c : Connection)
    (x : option error) (err : error) :
  isDryRun pkg = false ->
  In (EBuild token (inl c)) (fst (run w pkg o)) ->
  confirm_result w = Returned x ->
  cluster_get_result w c (clusterID o) = inr err ->
  snd (run w pkg o) = Exited 1 /\
  existsb is_close (fst (run w pkg o)) = false.
Proof.
  intros Hd Hin Hc Hg.
  destruct (run_built w pkg o token c Hin) as (pre & Hpre & E).
  rewrite E, (run_connected_lookup_fails _ _ _ _ _ _ Hd Hc Hg).
  split; [reflexivity|]. cbn [fst defer Close emit].
  rewrite existsb_app. cbn. rewrite orb_false_r.
  clear E Hin. induction pre as [|e pre IH]; [reflexivity|].
  cbn in Hpre |- *. apply andb_true_iff in Hpre. destruct Hpre as [He Hpre].
  rewrite (IH Hpre). destruct e; try discriminate He; reflexivity.
Qed.

(** C5, at a failing input: the session is built, the user confirms, the
    cluster cannot be retrieved.  The process ends with status 1 and the
    trace holds no [Close]. *)
Theorem run_leaks_session_on_lookup_failure :
  run world_no_cluster live sample_options =
    ([EGetenv "OCM_TOKEN";
      EBuild "t0k3n" (inl sample_connection);
      EConfirmSend;
      EClusterGet sample_connection "1a2b3c";
      EStderr ("Can't retrieve cluster: status is 404" ++ nl)],
     Exited 1) /\
  existsb is_close (fst (run world_no_cluster live sample_options)) = false.
Proof. split; reflexivity. Qed.

(** ** The request builder *)

(** C3, as amended: [createDeleteRequest] hands the path encoder exactly
    [/api/clusters_mgmt/v1/clusters/<cluster.ID>/limited_support_reasons/<reasonID>];
    with an encoder that takes the path as it is, that is the path of the
    request it returns; and it depends on the cluster through its ID only. *)
Theorem createDeleteRequest_target (w : World) (ocmClient : Connection)
    (cluster : Cluster) (reasonID : string) :
  let target :=
    "/api/clusters_mgmt/v1/clusters/" ++ ID cluster
      ++ "/limited_support_reasons/" ++ reasonID in
  let fresh := mkRequest ocmClient MethodDelete EmptyString [] in
  fst (createDeleteRequest w ocmClient cluster reasonID) =
    [EDelete ocmClient; EApplyPathArg fresh target] /\
  (apply_path_arg w fresh target = (set_path fresh target, None) ->
   snd (createDeleteRequest w ocmClient cluster reasonID) =
     Returned (Some (mkRequest ocmClient MethodDelete target []), None)) /\
  (forall cluster',
     ID cluster' = ID cluster ->
     createDeleteRequest w ocmClient cluster' reasonID =
     createDeleteRequest w ocmClient cluster reasonID).
Proof.
  intros target fresh. unfold createDeleteRequest, Delete, ApplyPathArg.
  fold target fresh. repeat split.
  - cbn -[String.append]. fold target fresh.
    destruct (apply_path_arg w fresh target) as [r [e|]]; reflexivity.
  - intros H. cbn -[String.append]. fold target fresh. rewrite H. reflexivity.
  - intros cluster' H. rewrite H. reflexivity.
Qed.

(** ** Failures that are printed *)

Lemma createDeleteRequest_returns (w : World) (c : Connection) (cl : Cluster)
    (reasonID : string) :
  exists req err,
    snd (createDeleteRequest w c cl reasonID) = Returned (req, err) /\
    (err <> None -> req = None).
Proof.
  unfold createDeleteRequest, Delete, ApplyPathArg. cbn -[String.append].
  destruct (apply_path_arg w _ _) as [r [e|]]; cbn -[String.append];
    eexists _, _; (split; [reflexivity|]); intros H;
    first [reflexivity | now destruct H].
Qed.

Lemma checkDelete_returns (w : World) (r : Response) :
  exists err, snd (checkDelete w (Some r)) = Returned err.
Proof.
  rewrite checkDelete_Some.
  destruct (status r =? StatusNoContent)%Z; [now eexists|].
  destruct (valid_json w (body r)); [|now eexists].
  destruct (snd (unmarshal w (body r) None)); now eexists.
Qed.

Lemma checkDelete_nil (w : World) :
  checkDelete w None = ([], Panicked nil_dereference).
Proof. reflexivity. Qed.

(** The trace and the outcome of the last part of [run], when the send
    step returns. *)
Lemma run_delete_sent (w : World) (o : deleteOptions) (c : Connection)
    (cl : Cluster) (req : option Request) (e1 : option error)
    (resp : option Response) (e2 : option error) :
  snd (createDeleteRequest w c cl (limitedSupportReasonID o)) = Returned (req, e1) ->
  send_result w req = Returned (resp, e2) ->
  run_delete w o c cl =
    ((fst (createDeleteRequest w c cl (limitedSupportReasonID o))
      ++ fst (if_err e1 (fun err =>
                fmt_Printf ("failed post call " ++ quote w err ++ nl)))
      ++ ESendRequest req
      :: fst (if_err e2 (fun err =>
                fmt_Printf ("Failed to get delete call response: "
                            ++ quote w err ++ nl)))
      ++ fst (checkDelete w resp)
      ++ match snd (checkDelete w resp) with
         | Returned err =>
             fst (if_err err (fun err =>
                    fmt_Printf ("check for delete call failed: " ++ quote w err)))
         | _ => []
         end)%list,
     match snd (checkDelete w resp) with
     | Returned _ => Returned None
     | Exited code => Exited code
     | Panicked msg => Panicked msg
     end).
Proof.
  intros H1 H2. unfold run_delete.
  destruct (createDeleteRequest w c cl (limitedSupportReasonID o)) as [t1 o1].
  cbn [snd fst] in *. subst o1.
  unfold sendRequest, verb_q. 
  destruct (checkDelete w resp) as [t3 o3] eqn:H3.
  cbn -[String.append checkDelete]. 
  destruct e1 as [e1|]; cbn -[String.append checkDelete]; rewrite H2;
    destruct e2 as [e2|]; cbn -[String.append checkDelete]; rewrite H3;
    destruct o3 as [[e3|]|code|msg]; cbn -[String.append checkDelete];
    rewrite ?app_nil_r; reflexivity.
Qed.

(** Up to and including the send step, whatever the send step does. *)
Lemma run_delete_reaches_send (w : World) (o : deleteOptions) (c : Connection)
    (cl : Cluster) (req : option Request) (e1 : option error) :
  snd (createDeleteRequest w c cl (limitedSupportReasonID o)) = Returned (req, e1) ->
  exists post,
    fst (run_delete w o c cl) =
      (fst (createDeleteRequest w c cl (limitedSupportReasonID o))
       ++ fst (if_err e1 (fun err =>
                 fmt_Printf ("failed post call " ++ quote w err ++ nl)))
       ++ ESendRequest req :: post)%list.
Proof.
  intros H1. unfold run_delete.
  rewrite bind_trace, H1, bind_trace. unfold verb_q.
  assert (Hp : snd (if_err e1 (fun err =>
             fmt_Printf ("failed post call " ++ quote w err ++ nl))) = Returned tt)
    by (destruct e1; reflexivity).
  rewrite Hp, bind_trace. unfold sendRequest at 1. rewrite bind_trace.
  cbn [emit fst snd app]. eexists. reflexivity.
Qed.

(** With a session, a confirmation and a cluster, [run] is its last part
    followed by the deferred [Close]. *)
Lemma run_reaches_delete (w : World) (pkg : Package) (o : deleteOptions)
    (token : string) (c : Connection) (x : option error) (cl : Cluster) :
  isDryRun pkg = false ->
  In (EBuild token (inl c)) (fst (run w pkg o)) ->
  confirm_result w = Returned x ->
  cluster_get_result w c (clusterID o) = inl cl ->
  exists pre,
    run w pkg o =
      ((pre ++ fst (run_delete w o c cl)
            ++ match snd (run_delete w o c cl) with
               | Exited _ => []
               | _ => [EClose c]
               end)%list,
       snd (run_delete w o c cl)).
Proof.
  intros Hd Hin Hc Hg.
  destruct (run_built w pkg o token c Hin) as (pre & _ & E).
  exists (pre ++ [EBuild token (inl c); EConfirmSend; EClusterGet c (clusterID o)])%list.
  rewrite E, (run_connected_lookup_ok _ _ _ _ _ _ Hd Hc Hg), defer_Close.
  cbn [fst snd]. rewrite <- app_assoc.
  destruct (snd (run_delete w o c cl)); cbn [fst snd app];
    rewrite ?app_nil_r; reflexivity.
Qed.

(** The whole of [run] from the send step on, when the send step returns. *)
Lemma run_sent (w : World) (pkg : Package) (o : deleteOptions)
    (token : string) (c : Connection) (x : option error) (cl : Cluster)
    (req : option Request) (e1 : option error)
    (resp : option Response) (e2 : option error) :
  isDryRun pkg = false ->
  In (EBuild token (inl c)) (fst (run w pkg o)) ->
  confirm_result w = Returned x ->
  cluster_get_result w c (clusterID o) = inl cl ->
  snd (createDeleteRequest w c cl (limitedSupportReasonID o)) = Returned (req, e1) ->
  send_result w req = Returned (resp, e2) ->
  exists pre,
    run w pkg o =
      ((pre
        ++ ESendRequest req
        :: fst (if_err e2 (fun err =>
                  fmt_Printf ("Failed to get delete call response: "
                              ++ quote w err ++ nl)))
        ++ fst (checkDelete w resp)
        ++ match snd (checkDelete w resp) with
           | Returned err =>
               fst (if_err err (fun err =>
                      fmt_Printf ("check for delete call failed: " ++ quote w err)))
               ++ [EClose c]
           | Exited _ => []
           | Panicked _ => [EClose c]
           end)%list,
       match snd (checkDelete w resp) with
       | Returned _ => Returned None
       | Exited code => Exited code
       | Panicked msg => Panicked msg
       end).
Proof.
  intros Hd Hin Hc Hg H1 H2.
  destruct (run_reaches_delete w pkg o token c x cl Hd Hin Hc Hg) as [pre E].
  rewrite E. clear E.
  rewrite (run_delete_sent w o c cl req e1 resp e2 H1 H2).
  cbn [fst snd].
  generalize (fst (createDeleteRequest w c cl (limitedSupportReasonID o))) as t1.
  generalize (fst (if_err e1 (fun err =>
                fmt_Printf ("failed post call " ++ quote w err ++ nl)))) as p1.
  generalize (fst (if_err e2 (fun err =>
                fmt_Printf ("Failed to get delete call response: "
                            ++ quote w err ++ nl)))) as p2.
  destruct (checkDelete w resp) as [t3 o3]. cbn [fst snd].
  intros p2 p1 t1. exists (pre ++ t1 ++ p1)%list.
  destruct o3 as [err|code|msg]; f_equal;
    repeat (rewrite <- ?app_assoc; cbn [app]); rewrite ?app_nil_r; reflexivity.
Qed.

(** C10: when the send step fails, [run] prints the send error and goes
    on to [checkDelete] with the response it was handed, nil or not;
    [checkDelete] reads a nil response without a guard and panics, so none
    of its error results stands for a nil response. *)
Theorem send_failure_reaches_checkDelete (w : World) (pkg : Package)
    (o : deleteOptions) (token : string) (c : Connection) (x : option error)
    (cl : Cluster) (req : option Request) (e1 : option error)
    (resp : option Response) (e : error) :
  isDryRun pkg = false ->
  In (EBuild token (inl c)) (fst (run w pkg o)) ->
  confirm_result w = Returned x ->
  cluster_get_result w c (clusterID o) = inl cl ->
  snd (createDeleteRequest w c cl (limitedSupportReasonID o)) = Returned (req, e1) ->
  send_result w req = Returned (resp, Some e) ->
  (exists pre post,
     fst (run w pkg o) =
       (pre ++ [ESendRequest req;
                EStdout ("Failed to get delete call response: " ++ quote w e ++ nl)]
            ++ fst (checkDelete w resp) ++ post)%list) /\
  snd (run w pkg o) =
    match snd (checkDelete w resp) with
    | Returned _ => Returned None
    | Exited code => Exited code
    | Panicked msg => Panicked msg
    end /\
  (resp = None -> snd (run w pkg o) = Panicked nil_dereference) /\
  (forall w', checkDelete w' None = ([], Panicked nil_dereference)).
Proof.
  intros Hd Hin Hc Hg H1 H2.
  destruct (run_sent w pkg o token c x cl req e1 resp (Some e) Hd Hin Hc Hg H1 H2)
    as [pre E].
  rewrite E.
  split; [|split; [|split]].
  - exists pre. eexists. cbn [fst if_err fmt_Printf emit]. cbn [app]. reflexivity.
  - reflexivity.
  - intros ->. rewrite checkDelete_nil. reflexivity.
  - intros w'. apply checkDelete_nil.
Qed.

(** C9, at a failing input: the request cannot be sent and no response
    comes back.  [run] prints the send error, goes on to [checkDelete] with
    the nil response and panics there; the deferred [Close] runs and [run]
    does not return. *)
Theorem run_crashes_on_send_failure :
  send_result world_send_fails (Some sample_request) =
    Returned (None, Some "cannot send request: EOF") /\
  run world_send_fails live sample_options =
    ([EGetenv "OCM_TOKEN";
      EBuild "t0k3n" (inl sample_connection);
      EConfirmSend;
      EClusterGet sample_connection "1a2b3c";
      EDelete sample_connection;
      EApplyPathArg (mkRequest sample_connection MethodDelete EmptyString [])
        sample_target;
      ESendRequest (Some sample_request);
      EStdout ("Failed to get delete call response: "
               ++ plain_quote "cannot send request: EOF" ++ nl);
      EClose sample_connection],
     Panicked nil_dereference) /\
  snd (run world_send_fails live sample_options) <> Returned None.
Proof. split; [reflexivity|]. split; [reflexivity | discriminate]. Qed.

(** C3 as stated fails: with an encoder that parses its argument, a reason
    ID that holds a [?] is not part of the path verbatim; the request
    targets the path up to the [?]. *)
Lemma reason_id_with_query_is_cut :
  snd (createDeleteRequest world_parsing sample_connection sample_cluster
         "r-42?force=true") =
    Returned
      (Some (mkRequest sample_connection MethodDelete
               "/api/clusters_mgmt/v1/clusters/1a2b3c/limited_support_reasons/r-42"
               [("force", "true")]),
       None) /\
  "/api/clusters_mgmt/v1/clusters/1a2b3c/limited_support_reasons/r-42" <>
  "/api/clusters_mgmt/v1/clusters/" ++ ID sample_cluster
    ++ "/limited_support_reasons/" ++ "r-42?force=true".
Proof. split; [reflexivity | discriminate]. Qed.

(** ** The theorems at work on the sample worlds *)

Lemma checkDelete_discards_bad_reply_witness :
  checkDelete (world_reply 400 "{}")
    (Some (mkResponse 400 (list_byte_of_string "{}"))) = ([], Returned None).
Proof.
  apply (checkDelete_discards_bad_reply (world_reply 400 "{}")
           (mkResponse 400 (list_byte_of_string "{}")) (Some (mkBadReply [])));
    [discriminate | reflexivity | reflexivity].
Defined.

Lemma checkDelete_no_content_witness :
  checkDelete (world_reply 204 "not-json")
    (Some (mkResponse 204 (list_byte_of_string "not-json"))) =
    ([EStdout ("Limited support reason deleted successfully" ++ nl)], Returned None).
Proof.
  apply (checkDelete_no_content (world_reply 204 "not-json")
           (mkResponse 204 (list_byte_of_string "not-json"))).
  reflexivity.
Defined.

Lemma checkDelete_invalid_json_witness :
  exists err,
    checkDelete (world_reply 400 "not-json")
      (Some (mkResponse 400 (list_byte_of_string "not-json"))) =
      ([], Returned (Some err)) /\
    contains "server returned invalid JSON" err.
Proof.
  apply (checkDelete_invalid_json (world_reply 400 "not-json")
           (mkResponse 400 (list_byte_of_string "not-json")));
    [discriminate | reflexivity].
Defined.

Lemma checkDelete_unparseable_witness :
  exists err,
    checkDelete (world_reply 400 "42")
      (Some (mkResponse 400 (list_byte_of_string "42"))) =
      ([], Returned (Some err)) /\
    err = "cannot parse the error JSON meessage: "
          ++ plain_quote
               "json: cannot unmarshal number into Go value of type support.BadReply" /\
    contains
      (plain_quote
         "json: cannot unmarshal number into Go value of type support.BadReply")
      err.
Proof.
  apply (checkDelete_unparseable (world_reply 400 "42")
           (mkResponse 400 (list_byte_of_string "42")) None
           "json: cannot unmarshal number into Go value of type support.BadReply");
    [discriminate | reflexivity | reflexivity].
Defined.

Lemma createDeleteRequest_target_witness :
  snd (createDeleteRequest (world_reply 204 EmptyString) sample_connection
         sample_cluster "r-42") =
    Returned (Some sample_request, None).
Proof.
  pose proof (createDeleteRequest_target (world_reply 204 EmptyString)
                sample_connection sample_cluster "r-42") as H.
  cbv zeta in H. destruct H as (_ & H & _).
  apply H. reflexivity.
Defined.

Lemma dry_run_stops_after_session_witness :
  exists pre,
    forallb is_credential_call pre = true /\
    run world_no_cluster dry sample_options =
      ((pre ++ [EBuild "t0k3n" (inl sample_connection);
                EClose sample_connection])%list,
       Returned None).
Proof.
  destruct (dry_run_stops_after_session world_no_cluster dry sample_options)
    as [_ H]; [reflexivity|].
  apply H. right. left. reflexivity.
Defined.

Lemma confirm_before_delete_witness :
  In EConfirmSend
    [EGetenv "OCM_TOKEN";
     EBuild "t0k3n" (inl sample_connection);
     EConfirmSend;
     EClusterGet sample_connection "1a2b3c";
     EDelete sample_connection;
     EApplyPathArg (mkRequest sample_connection MethodDelete EmptyString [])
       sample_target].
Proof.
  apply (confirm_before_delete (world_reply 204 EmptyString) live sample_options
           _
           [EStdout ("Limited support reason deleted successfully" ++ nl);
            EClose sample_connection]
           (ESendRequest (Some sample_request)));
    reflexivity.
Defined.

Lemma send_failure_reaches_checkDelete_witness :
  (exists pre post,
     fst (run world_send_fails live sample_options) =
       (pre ++ [ESendRequest (Some sample_request);
                EStdout ("Failed to get delete call response: "
                         ++ plain_quote "cannot send request: EOF" ++ nl)]
            ++ fst (checkDelete world_send_fails None) ++ post)%list) /\
  snd (run world_send_fails live sample_options) = Panicked nil_dereference.
Proof.
  destruct (send_failure_reaches_checkDelete world_send_fails live
              sample_options "t0k3n" sample_connection None sample_cluster
              (Some sample_request) None None "cannot send request: EOF")
    as (Ht & _ & Hp & _);
    [reflexivity | right; left; reflexivity | reflexivity | reflexivity
    | reflexivity | reflexivity |].
  split; [exact Ht | exact (Hp eq_refl)].
Defined.

(** ** What [run] returns *)

Lemma bind_returns {A B : Type} (P : B -> Prop) (m : proc A) (k : A -> proc B) :
  (forall a, match snd (k a) with Returned b => P b | _ => True end) ->
  match snd (bind m k) with Returned b => P b | _ => True end.
Proof.
  intros H. rewrite bind_outcome. destruct (snd m); [apply H | exact I | exact I].
Qed.

Lemma run_delete_returns_nil (w : World) (o : deleteOptions) (c : Connection)
    (cl : Cluster) :
  match snd (run_delete w o c cl) with Returned e => e = None | _ => True end.
Proof.
  unfold run_delete.
  apply bind_returns. intros [req e1].
  apply bind_returns. intros _.
  apply bind_returns. intros [resp e2].
  apply bind_returns. intros _.
  apply bind_returns. intros e3.
  apply bind_returns. intros _. reflexivity.
Qed.

Lemma run_connected_returns_nil (w : World) (pkg : Package)
    (o : deleteOptions) (c : Connection) :
  match snd (run_connected w pkg o c) with Returned e => e = None | _ => True end.
Proof.
  unfold run_connected. destruct (isDryRun pkg); [reflexivity|].
  apply bind_returns. intros _.
  apply bind_returns. intros [cl|err].
  - apply run_delete_returns_nil.
  - exact I.
Qed.

Lemma run_result_nil (w : World) (pkg : Package) (o : deleteOptions) :
  match snd (run w pkg o) with Returned e => e = None | _ => True end.
Proof.
  destruct (run_session w pkg o) as
    (pre & Hpre & [(token & c & _ & E) | [(token & err & E) | [E | E]]]);
    rewrite E; cbn [snd]; try exact I.
  rewrite defer_Close.
  pose proof (run_connected_returns_nil w pkg o c) as H.
  destruct (snd (run_connected w pkg o c)); cbn [snd]; exact H.
Qed.

(** X1: [run] has no error result: whenever it returns, it returns nil. *)
Theorem run_returns_nil (w : World) (pkg : Package) (o : deleteOptions) :
  match snd (run w pkg o) with Returned e => e = None | _ => True end.
Proof. exact (run_result_nil w pkg o). Qed.

(** ** Credentials and session *)

Lemma checkDelete_after_session (w : World) (response : option Response) :
  forallb after_session (fst (checkDelete w response)) = true.
Proof.
  unfold checkDelete, Response_Bytes, Response_Status, fmt_Printf, panic.
  walk fail.
Qed.

Lemma run_delete_after_session (w : World) (o : deleteOptions)
    (c : Connection) (cl : Cluster) :
  forallb after_session (fst (run_delete w o c cl)) = true.
Proof.
  unfold run_delete, createDeleteRequest, Delete, ApplyPathArg, sendRequest,
    if_err, fmt_Printf.
  walk ltac:(apply checkDelete_after_session).
Qed.

Lemma run_connected_after_session (w : World) (pkg : Package)
    (o : deleteOptions) (c : Connection) :
  forallb after_session (fst (run_connected w pkg o c)) = true.
Proof.
  unfold run_connected, confirmSend, Get_SendContext, fmt_Fprintf_Stderr.
  walk ltac:(apply run_delete_after_session).
Qed.

Lemma deferred_after_session (w : World) (pkg : Package) (o : deleteOptions)
    (c : Connection) :
  forallb (fun e => after_session e || is_close e)
    (fst (defer (Close c) (run_connected w pkg o c))) = true.
Proof.
  rewrite defer_Close.
  pose proof (run_connected_after_session w pkg o c) as H.
  assert (H' : forallb (fun e => after_session e || is_close e)
                 (fst (run_connected w pkg o c)) = true).
  { rewrite forallb_forall in H |- *. intros e He. now rewrite (H e He). }
  destruct (snd (run_connected w pkg o c)); cbn [fst];
    rewrite ?forallb_app, H'; reflexivity.
Qed.

(** With a token in the environment, [run] starts as follows. *)
Lemma run_env_token (w : World) (pkg : Package) (o : deleteOptions) :
  environ w "OCM_TOKEN" <> EmptyString ->
  run w pkg o =
    match build_result w (environ w "OCM_TOKEN") with
    | inl c =>
        (EGetenv "OCM_TOKEN"
           :: EBuild (environ w "OCM_TOKEN") (inl c)
           :: fst (defer (Close c) (run_connected w pkg o c)),
         snd (defer (Close c) (run_connected w pkg o c)))
    | inr err =>
        ([EGetenv "OCM_TOKEN"; EBuild (environ w "OCM_TOKEN") (inr err);
          EStderr ("Can't build connection: " ++ err ++ nl)], Exited 1)
    end.
Proof.
  intros Henv. apply String.eqb_neq in Henv.
  unfold run, os_Getenv, Build, fmt_Fprintf_Stderr.
  cbn -[String.append defer run_connected]. rewrite Henv.
  cbn -[String.append defer run_connected].
  destruct (build_result w (environ w "OCM_TOKEN")) as [c|err].
  - destruct (defer (Close c) (run_connected w pkg o c)); reflexivity.
  - reflexivity.
Qed.

(** X2: a token in [OCM_TOKEN] is the one the session is built with, and
    the fallback lookup is not consulted. *)
Theorem env_token_takes_precedence (w : World) (pkg : Package)
    (o : deleteOptions) :
  environ w "OCM_TOKEN" <> EmptyString ->
  (exists rest,
     fst (run w pkg o) =
       EGetenv "OCM_TOKEN"
         :: EBuild (environ w "OCM_TOKEN")
              (build_result w (environ w "OCM_TOKEN"))
         :: rest) /\
  existsb is_token_fallback (fst (run w pkg o)) = false.
Proof.
  intros Henv. rewrite (run_env_token w pkg o Henv).
  destruct (build_result w (environ w "OCM_TOKEN")) as [c|err]; cbn [fst].
  - split; [eexists; reflexivity|].
    cbn [existsb is_token_fallback orb].
    pose proof (deferred_after_session w pkg o c) as H.
    induction (fst (defer (Close c) (run_connected w pkg o c))) as [|e t IH];
      [reflexivity|].
    cbn in H |- *. apply andb_true_iff in H. destruct H as [He Ht].
    rewrite (IH Ht). destruct e; try discriminate He; reflexivity.
  - split; [eexists; reflexivity | reflexivity].
Qed.

(** X3: with no token in the environment, the session is built with the
    token of the fallback lookup. *)
Theorem fallback_token_is_used (w : World) (pkg : Package) (o : deleteOptions)
    (token : string) :
  environ w "OCM_TOKEN" = EmptyString ->
  ocm_access_token w = (Some token, None) ->
  exists rest,
    fst (run w pkg o) =
      EGetenv "OCM_TOKEN" :: EGetOCMAccessToken
        :: EBuild token (build_result w token) :: rest.
Proof.
  intros Henv Htok.
  unfold run, os_Getenv, GetOCMAccessToken, Build, fmt_Fprintf_Stderr,
    deref_string, if_err.
  cbn -[String.append defer run_connected]. rewrite Henv.
  cbn -[String.append defer run_connected]. rewrite Htok.
  cbn -[String.append defer run_connected].
  destruct (build_result w token) as [c|err].
  - destruct (defer (Close c) (run_connected w pkg o c)); eexists; reflexivity.
  - eexists; reflexivity.
Qed.

(** X4: with no token in the environment and a failing fallback lookup,
    [run] logs the fatal message and ends the process with status 1 before
    it builds a session. *)
Theorem no_token_is_fatal (w : World) (pkg : Package) (o : deleteOptions)
    (err : error) :
  environ w "OCM_TOKEN" = EmptyString ->
  snd (ocm_access_token w) = Some err ->
  run w pkg o =
    ([EGetenv "OCM_TOKEN"; EGetOCMAccessToken; ELogFatalf fatal_no_token],
     Exited 1).
Proof.
  intros Henv Htok.
  unfold run, os_Getenv, GetOCMAccessToken, log_Fatalf, if_err.
  cbn -[String.append defer run_connected]. rewrite Henv.
  cbn -[String.append defer run_connected].
  destruct (ocm_access_token w) as [p e]. cbn [snd] in Htok. subst e.
  reflexivity.
Qed.

(** X5: when the session cannot be built, [run] reports it on standard
    error and ends the process with status 1; nothing else happens. *)
Theorem build_failure_is_fatal (w : World) (pkg : Package) (o : deleteOptions)
    (token : string) (err : error) :
  In (EBuild token (inr err)) (fst (run w pkg o)) ->
  exists pre,
    forallb is_credential_call pre = true /\
    run w pkg o =
      ((pre ++ [EBuild token (inr err);
                EStderr ("Can't build connection: " ++ err ++ nl)])%list,
       Exited 1).
Proof.
  intros Hin.
  destruct (run_session w pkg o) as
    (pre & Hpre & [(token' & c' & _ & E) | [(token' & err' & E) | [E | E]]]);
    rewrite E in Hin |- *; cbn [fst] in Hin.
  - exfalso. apply in_app_or in Hin. destruct Hin as [Hin | [Heq | Hin]].
    + now apply credentials_no_build in Hin.
    + discriminate Heq.
    + pose proof (deferred_after_session w pkg o c') as H.
      rewrite forallb_forall in H. specialize (H _ Hin). discriminate H.
  - apply in_app_or in Hin. destruct Hin as [Hin | [Heq | [Heq | []]]].
    + now apply credentials_no_build in Hin.
    + injection Heq as -> ->. exists pre. split; [exact Hpre | reflexivity].
    + discriminate Heq.
  - apply in_app_or in Hin. destruct Hin as [Hin | [Heq | []]];
      [now apply credentials_no_build in Hin | discriminate Heq].
  - now apply credentials_no_build in Hin.
Qed.

(** ** Fatal failures after the session is built *)

(** X6: when the cluster cannot be retrieved, [run] reports it on standard
    error and ends the process with status 1; no delete request is built
    or sent. *)
Theorem lookup_failure_is_fatal (w : World) (pkg : Package)
    (o : deleteOptions) (token : string) (c : Connection)
    (x : option error) (err : error) :
  isDryRun pkg = false ->
  In (EBuild token (inl c)) (fst (run w pkg o)) ->
  confirm_result w = Returned x ->
  cluster_get_result w c (clusterID o) = inr err ->
  exists pre,
    forallb is_credential_call pre = true /\
    run w pkg o =
      ((pre ++ [EBuild token (inl c); EConfirmSend;
                EClusterGet c (clusterID o);
                EStderr ("Can't retrieve cluster: " ++ err ++ nl)])%list,
       Exited 1).
Proof.
  intros Hd Hin Hc Hg.
  destruct (run_built w pkg o token c Hin) as (pre & Hpre & E).
  exists pre. split; [exact Hpre|].
  rewrite E, (run_connected_lookup_fails _ _ _ _ _ _ Hd Hc Hg). reflexivity.
Qed.

Lemma run_connected_confirm_exits (w : World) (pkg : Package)
    (o : deleteOptions) (c : Connection) (code : Z) :
  isDryRun pkg = false ->
  confirm_result w = Exited code ->
  run_connected w pkg o c = ([EConfirmSend], Exited code).
Proof.
  intros Hd Hc. unfold run_connected, confirmSend. rewrite Hd, Hc. reflexivity.
Qed.

(** X7: when [confirmSend] ends the process, [run] has made no cluster
    lookup and no delete call, and the process ends with the status
    [confirmSend] chose. *)
Theorem confirm_exit_stops_run (w : World) (pkg : Package) (o : deleteOptions)
    (token : string) (c : Connection) (code : Z) :
  isDryRun pkg = false ->
  In (EBuild token (inl c)) (fst (run w pkg o)) ->
  confirm_result w = Exited code ->
  exists pre,
    forallb is_credential_call pre = true /\
    run w pkg o =
      ((pre ++ [EBuild token (inl c); EConfirmSend])%list, Exited code).
Proof.
  intros Hd Hin Hc.
  destruct (run_built w pkg o token c Hin) as (pre & Hpre & E).
  exists pre. split; [exact Hpre|].
  rewrite E, (run_connected_confirm_exits _ _ _ _ _ Hd Hc). reflexivity.
Qed.

(** ** The value [confirmSend] returns *)

Lemma run_connected_answer_confirm (w : World) (pkg : Package)
    (o : deleteOptions) (c : Connection) (x : option error) :
  confirm_result w = Returned x ->
  run_connected (answer_confirm w (Returned None)) pkg o c =
  run_connected w pkg o c.
Proof.
  intros Hc. unfold run_connected, confirmSend.
  cbn [confirm_result answer_confirm]. rewrite Hc.
  destruct (isDryRun pkg); reflexivity.
Qed.

(** X8: [run] discards what [confirmSend] returns: an error returned by
    [confirmSend] changes nothing in what [run] does next. *)
Theorem confirm_result_is_discarded (w : World) (pkg : Package)
    (o : deleteOptions) (x : option error) :
  confirm_result w = Returned x ->
  run w pkg o = run (answer_confirm w (Returned None)) pkg o.
Proof.
  intros Hc.
  unfold run, os_Getenv, GetOCMAccessToken, Build, log_Fatalf,
    fmt_Fprintf_Stderr, deref_string, if_err.
  cbn -[String.append defer run_connected].
  destruct (String.eqb (environ w "OCM_TOKEN") EmptyString).
  - cbn -[String.append defer run_connected].
    destruct (ocm_access_token w) as [[tok|] [err|]];
      cbn -[String.append defer run_connected]; try reflexivity.
    destruct (build_result w tok) as [c|err]; [|reflexivity].
    rewrite (run_connected_answer_confirm w pkg o c x Hc). reflexivity.
  - cbn -[String.append defer run_connected].
    destruct (build_result w (environ w "OCM_TOKEN")) as [c|err]; [|reflexivity].
    rewrite (run_connected_answer_confirm w pkg o c x Hc). reflexivity.
Qed.

(** ** Dry run and the options *)

(** X9: with the dry-run flag set, [run] does not look at its options:
    cluster ID and reason ID play no part. *)
Theorem dry_run_ignores_options (w : World) (pkg : Package)
    (o o' : deleteOptions) :
  isDryRun pkg = true ->
  run w pkg o = run w pkg o'.
Proof.
  intros Hd.
  unfold run, os_Getenv, GetOCMAccessToken, Build, log_Fatalf,
    fmt_Fprintf_Stderr, deref_string, if_err.
  cbn -[String.append defer run_connected].
  destruct (String.eqb (environ w "OCM_TOKEN") EmptyString).
  - cbn -[String.append defer run_connected].
    destruct (ocm_access_token w) as [[tok|] [err|]];
      cbn -[String.append defer run_connected]; try reflexivity.
    destruct (build_result w tok) as [c|err]; [|reflexivity].
    rewrite !(run_connected_dry w pkg _ c Hd). reflexivity.
  - cbn -[String.append defer run_connected].
    destruct (build_result w (environ w "OCM_TOKEN")) as [c|err]; [|reflexivity].
    rewrite !(run_connected_dry w pkg _ c Hd). reflexivity.
Qed.

(** ** Closing the session *)

Lemma never_both (P Q : event -> bool) (t : list event) :
  (forall e, P e = true -> Q e = false) ->
  forallb P t = true -> existsb Q t = false.
Proof.
  intros H. induction t as [|e t IH]; cbn; [reflexivity|].
  intros Ht. apply andb_true_iff in Ht. destruct Ht as [He Ht].
  now rewrite (H e He), (IH Ht).
Qed.

Lemma credentials_no_close (pre : list event) :
  forallb is_credential_call pre = true -> existsb is_close pre = false.
Proof.
  apply never_both. intros e He. destruct e; try discriminate He; reflexivity.
Qed.

Lemma after_session_no_close (t : list event) :
  forallb after_session t = true -> existsb is_close t = false.
Proof.
  apply never_both. intros e He. destruct e; try discriminate He; reflexivity.
Qed.

(** X10: [run] closes nothing but the session it has built, once, and as
    the last thing it does. *)
Theorem close_is_last_and_once (w : World) (pkg : Package) (o : deleteOptions)
    (c : Connection) :
  In (EClose c) (fst (run w pkg o)) ->
  exists token pre,
    fst (run w pkg o) = (pre ++ [EClose c])%list /\
    In (EBuild token (inl c)) pre /\
    existsb is_close pre = false.
Proof.
  intros Hin.
  destruct (run_session w pkg o) as
    (pre & Hpre & [(token & c' & _ & E) | [(token & err & E) | [E | E]]]);
    rewrite E in Hin |- *; cbn [fst] in *.
  - pose proof (run_connected_after_session w pkg o c') as Hrc.
    pose proof (after_session_no_close _ Hrc) as Hnc.
    pose proof (credentials_no_close _ Hpre) as Hpc.
    rewrite defer_Close in Hin |- *.
    assert (Hquiet : ~ In (EClose c)
              (pre ++ EBuild token (inl c') :: fst (run_connected w pkg o c'))%list).
    { intros H. apply in_app_or in H. destruct H as [H | [H | H]].
      - rewrite forallb_forall in Hpre. specialize (Hpre _ H). discriminate Hpre.
      - discriminate H.
      - rewrite forallb_forall in Hrc. specialize (Hrc _ H). discriminate Hrc. }
    assert (Hpref : existsb is_close
              (pre ++ EBuild token (inl c') :: fst (run_connected w pkg o c'))%list
              = false).
    { rewrite existsb_app, Hpc. cbn. exact Hnc. }
    destruct (snd (run_connected w pkg o c')); cbn [fst] in *.
    + exists token, (pre ++ EBuild token (inl c') :: fst (run_connected w pkg o c'))%list.
      rewrite app_comm_cons, app_assoc in Hin.
      apply in_app_or in Hin. destruct Hin as [Hin | [Heq | []]];
        [now destruct (Hquiet Hin)|].
      injection Heq as <-. rewrite <- app_assoc. cbn [app].
      split; [reflexivity|]. split; [|exact Hpref].
      apply in_or_app. right. left. reflexivity.
    + now destruct (Hquiet Hin).
    + exists token, (pre ++ EBuild token (inl c') :: fst (run_connected w pkg o c'))%list.
      rewrite app_comm_cons, app_assoc in Hin.
      apply in_app_or in Hin. destruct Hin as [Hin | [Heq | []]];
        [now destruct (Hquiet Hin)|].
      injection Heq as <-. rewrite <- app_assoc. cbn [app].
      split; [reflexivity|]. split; [|exact Hpref].
      apply in_or_app. right. left. reflexivity.
  - exfalso. apply in_app_or in Hin. destruct Hin as [Hin | [Heq | [Heq | []]]];
      [|discriminate Heq|discriminate Heq].
    rewrite forallb_forall in Hpre. specialize (Hpre _ Hin). discriminate Hpre.
  - exfalso. apply in_app_or in Hin. destruct Hin as [Hin | [Heq | []]];
      [|discriminate Heq].
    rewrite forallb_forall in Hpre. specialize (Hpre _ Hin). discriminate Hpre.
  - exfalso.
    rewrite forallb_forall in Hpre. specialize (Hpre _ Hin). discriminate Hpre.
Qed.

(** ** The delete call, end to end *)

Lemma createDeleteRequest_run (w : World) (c : Connection) (cl : Cluster)
    (reasonID : string) :
  createDeleteRequest w c cl reasonID =
    ([EDelete c;
      EApplyPathArg (mkRequest c MethodDelete EmptyString [])
        (delete_target cl reasonID)],
     Returned
       match apply_path_arg w (mkRequest c MethodDelete EmptyString [])
               (delete_target cl reasonID) with
       | (r, None) => (Some r, None)
       | (_, Some cause) =>
           (None,
            Some ("cannot parse API path '" ++ delete_target cl reasonID
                  ++ "': " ++ cause))
       end).
Proof.
  unfold createDeleteRequest, Delete, ApplyPathArg, delete_target.
  cbn -[String.append].
  destruct (apply_path_arg w _ _) as [r [cause|]]; reflexivity.
Qed.

(** With a session, a confirmation, a cluster and a request the encoder
    accepts, [run] is the following when the send step hands back a
    response and no error. *)
Lemma run_answered (w : World) (pkg : Package) (o : deleteOptions)
    (token : string) (c : Connection) (x : option error) (cl : Cluster)
    (r : Request) (resp : Response) :
  isDryRun pkg = false ->
  In (EBuild token (inl c)) (fst (run w pkg o)) ->
  confirm_result w = Returned x ->
  cluster_get_result w c (clusterID o) = inl cl ->
  apply_path_arg w (mkRequest c MethodDelete EmptyString [])
    (delete_target cl (limitedSupportReasonID o)) = (r, None) ->
  send_result w (Some r) = Returned (Some resp, None) ->
  exists pre,
    forallb is_credential_call pre = true /\
    run w pkg o =
      ((pre ++ [EBuild token (inl c); EConfirmSend;
                EClusterGet c (clusterID o); EDelete c;
                EApplyPathArg (mkRequest c MethodDelete EmptyString [])
                  (delete_target cl (limitedSupportReasonID o));
                ESendRequest (Some r)]
            ++ fst (checkDelete w (Some resp))
            ++ match snd (checkDelete w (Some resp)) with
               | Returned (Some err) =>
                   [EStdout ("check for delete call failed: " ++ quote w err)]
               | _ => []
               end
            ++ [EClose c])%list,
       Returned None).
Proof.
  intros Hd Hin Hc Hg Ha Hs.
  destruct (run_built w pkg o token c Hin) as (pre & Hpre & E).
  exists pre. split; [exact Hpre|].
  assert (H1 : snd (createDeleteRequest w c cl (limitedSupportReasonID o))
               = Returned (Some r, None)).
  { rewrite createDeleteRequest_run. cbn [snd]. now rewrite Ha. }
  rewrite E, (run_connected_lookup_ok _ _ _ _ _ _ Hd Hc Hg), defer_Close.
  cbn [fst snd].
  rewrite (run_delete_sent w o c cl (Some r) None (Some resp) None H1 Hs).
  rewrite createDeleteRequest_run.
  destruct (checkDelete_returns w resp) as [err Hr]. rewrite Hr.
  cbn [fst snd if_err]. f_equal. f_equal.
  destruct err as [err|]; cbn [if_err fmt_Printf emit fst ret Monad_proc proc_ret];
    cbn [app]; rewrite <- ?app_assoc; reflexivity.
Qed.

(** X11: a delete the service answers with 204 runs through: session,
    confirmation, lookup with the cluster ID of the options, request for
    the canonical ID of the cluster found and the reason ID of the options,
    send, success message, close; [run] returns no error. *)
Theorem successful_delete (w : World) (pkg : Package) (o : deleteOptions)
    (token : string) (c : Connection) (x : option error) (cl : Cluster)
    (r : Request) (resp : Response) :
  isDryRun pkg = false ->
  In (EBuild token (inl c)) (fst (run w pkg o)) ->
  confirm_result w = Returned x ->
  cluster_get_result w c (clusterID o) = inl cl ->
  apply_path_arg w (mkRequest c MethodDelete EmptyString [])
    (delete_target cl (limitedSupportReasonID o)) = (r, None) ->
  send_result w (Some r) = Returned (Some resp, None) ->
  status resp = StatusNoContent ->
  exists pre,
    forallb is_credential_call pre = true /\
    run w pkg o =
      ((pre ++ [EBuild token (inl c); EConfirmSend;
                EClusterGet c (clusterID o); EDelete c;
                EApplyPathArg (mkRequest c MethodDelete EmptyString [])
                  (delete_target cl (limitedSupportReasonID o));
                ESendRequest (Some r);
                EStdout ("Limited support reason deleted successfully" ++ nl);
                EClose c])%list,
       Returned None).
Proof.
  intros Hd Hin Hc Hg Ha Hs H204.
  destruct (run_answered w pkg o token c x cl r resp Hd Hin Hc Hg Ha Hs)
    as (pre & Hpre & E).
  exists pre. split; [exact Hpre|].
  rewrite E, checkDelete_Some. apply Z.eqb_eq in H204. rewrite H204.
  reflexivity.
Qed.

(** X12: a delete the service refuses with a status other than 204 and a
    well-formed error body leaves no message at all: [run] prints nothing,
    closes the session and returns no error. *)
Theorem refused_delete_is_silent (w : World) (pkg : Package)
    (o : deleteOptions) (token : string) (c : Connection) (x : option error)
    (cl : Cluster) (r : Request) (resp : Response) :
  isDryRun pkg = false ->
  In (EBuild token (inl c)) (fst (run w pkg o)) ->
  confirm_result w = Returned x ->
  cluster_get_result w c (clusterID o) = inl cl ->
  apply_path_arg w (mkRequest c MethodDelete EmptyString [])
    (delete_target cl (limitedSupportReasonID o)) = (r, None) ->
  send_result w (Some r) = Returned (Some resp, None) ->
  status resp <> StatusNoContent ->
  valid_json w (body resp) = true ->
  snd (unmarshal w (body resp) None) = None ->
  exists pre,
    forallb is_credential_call pre = true /\
    run w pkg o =
      ((pre ++ [EBuild token (inl c); EConfirmSend;
                EClusterGet c (clusterID o); EDelete c;
                EApplyPathArg (mkRequest c MethodDelete EmptyString [])
                  (delete_target cl (limitedSupportReasonID o));
                ESendRequest (Some r);
                EClose c])%list,
       Returned None).
Proof.
  intros Hd Hin Hc Hg Ha Hs Hst Hv Hu.
  destruct (run_answered w pkg o token c x cl r resp Hd Hin Hc Hg Ha Hs)
    as (pre & Hpre & E).
  exists pre. split; [exact Hpre|].
  rewrite E, checkDelete_Some. apply Z.eqb_neq in Hst. rewrite Hst, Hv, Hu.
  reflexivity.
Qed.

(** X13: whatever happens afterwards, the lookup is made with the cluster
    ID of the options, and the delete request is created on the session
    for the canonical ID of the cluster found. *)
Theorem delete_targets_canonical_id (w : World) (pkg : Package)
    (o : deleteOptions) (token : string) (c : Connection) (x : option error)
    (cl : Cluster) :
  isDryRun pkg = false ->
  In (EBuild token (inl c)) (fst (run w pkg o)) ->
  confirm_result w = Returned x ->
  cluster_get_result w c (clusterID o) = inl cl ->
  exists pre post,
    fst (run w pkg o) =
      (pre ++ [EClusterGet c (clusterID o); EDelete c;
               EApplyPathArg (mkRequest c MethodDelete EmptyString [])
                 (delete_target cl (limitedSupportReasonID o))]
           ++ post)%list.
Proof.
  intros Hd Hin Hc Hg.
  destruct (run_built w pkg o token c Hin) as (pre & _ & E).
  destruct (createDeleteRequest_returns w c cl (limitedSupportReasonID o))
    as (req & e1 & H1 & _).
  destruct (run_delete_reaches_send w o c cl req e1 H1) as [post P].
  exists (pre ++ [EBuild token (inl c); EConfirmSend])%list.
  rewrite E, (run_connected_lookup_ok _ _ _ _ _ _ Hd Hc Hg), defer_Close.
  cbn [fst snd]. rewrite P, createDeleteRequest_run. cbn [fst].
  destruct (snd (run_delete w o c cl)); cbn [fst];
    eexists; rewrite <- !app_assoc; cbn [app]; rewrite <- ?app_assoc;
    cbn [app]; reflexivity.
Qed.

(** ** The interpreter, as a whole *)

(** X14: on a response that is there, [checkDelete] returns no error
    exactly when the status is 204, or the body is valid JSON that decodes
    into the error-shape record. *)
Theorem checkDelete_nil_iff (w : World) (r : Response) :
  snd (checkDelete w (Some r)) = Returned None <->
  status r = StatusNoContent \/
  (valid_json w (body r) = true /\ snd (unmarshal w (body r) None) = None).
Proof.
  rewrite checkDelete_Some.
  destruct (Z.eqb_spec (status r) StatusNoContent) as [Hs|Hs].
  - split; [now left | reflexivity].
  - destruct (valid_json w (body r)).
    + destruct (snd (unmarshal w (body r) None)) as [err|]; cbn [snd].
      * split; [discriminate|]. intros [H|[_ H]]; [contradiction | discriminate].
      * split; [now right | reflexivity].
    + cbn [snd]. split; [discriminate|].
      intros [H|[H _]]; [contradiction | discriminate].
Qed.

(** X15: no status other than 204 is told apart: two responses with the
    same body and statuses other than 204 are interpreted alike. *)
Theorem checkDelete_other_statuses_alike (w : World) (r1 r2 : Response) :
  status r1 <> StatusNoContent ->
  status r2 <> StatusNoContent ->
  body r1 = body r2 ->
  checkDelete w (Some r1) = checkDelete w (Some r2).
Proof.
  intros H1 H2 Hb. rewrite !checkDelete_Some.
  apply Z.eqb_neq in H1. apply Z.eqb_neq in H2. rewrite H1, H2, Hb.
  reflexivity.
Qed.

(** ** The request builder, as a whole *)

(** X16: [createDeleteRequest] returns either a request and no error, the
    request being the one the encoder produced, or no request and an error
    that names the path and the encoder's error; it never sends anything. *)
Theorem createDeleteRequest_request_or_error (w : World) (c : Connection)
    (cl : Cluster) (reasonID : string) :
  ((exists r,
      apply_path_arg w (mkRequest c MethodDelete EmptyString [])
        (delete_target cl reasonID) = (r, None) /\
      snd (createDeleteRequest w c cl reasonID) = Returned (Some r, None)) \/
   (exists cause,
      snd (apply_path_arg w (mkRequest c MethodDelete EmptyString [])
             (delete_target cl reasonID)) = Some cause /\
      snd (createDeleteRequest w c cl reasonID) =
        Returned (None,
                  Some ("cannot parse API path '" ++ delete_target cl reasonID
                        ++ "': " ++ cause)))) /\
  (forall req, ~ In (ESendRequest req) (fst (createDeleteRequest w c cl reasonID))).
Proof.
  rewrite createDeleteRequest_run. split.
  - destruct (apply_path_arg w _ _) as [r [cause|]]; cbn [snd].
    + right. exists cause. split; reflexivity.
    + left. exists r. split; reflexivity.
  - intros req [H|[H|[]]]; discriminate H.
Qed.

(** ** How [run] can end the process *)

Lemma checkDelete_never_exits (w : World) (response : option Response) :
  match snd (checkDelete w response) with
  | Returned _ => True
  | Exited _ => False
  | Panicked msg => response = None /\ msg = nil_dereference
  end.
Proof.
  destruct response as [r|].
  - destruct (checkDelete_returns w r) as [err H]. now rewrite H.
  - rewrite checkDelete_nil. split; reflexivity.
Qed.

(** The last part of [run] when the send step does not return. *)
Lemma run_delete_send_stops (w : World) (o : deleteOptions) (c : Connection)
    (cl : Cluster) (req : option Request) (e1 : option error) :
  snd (createDeleteRequest w c cl (limitedSupportReasonID o)) = Returned (req, e1) ->
  (forall x, send_result w req <> Returned x) ->
  exists pre,
    run_delete w o c cl =
      ((pre ++ [ESendRequest req])%list,
       match send_result w req with
       | Returned _ => Returned None
       | Exited code => Exited code
       | Panicked msg => Panicked msg
       end).
Proof.
  intros H1 Hs. unfold run_delete.
  destruct (createDeleteRequest w c cl (limitedSupportReasonID o)) as [t1 o1].
  cbn [snd] in H1. subst o1. unfold sendRequest, verb_q.
  destruct (send_result w req) as [x|code|msg] eqn:Hsend;
    [now destruct (Hs x)| |];
    destruct e1 as [e1|]; cbn -[String.append checkDelete]; rewrite Hsend.
  - exists (t1 ++ [EStdout ("failed post call " ++ quote w e1 ++ nl)])%list.
    now rewrite <- app_assoc.
  - exists t1. reflexivity.
  - exists (t1 ++ [EStdout ("failed post call " ++ quote w e1 ++ nl)])%list.
    now rewrite <- app_assoc.
  - exists t1. reflexivity.
Qed.

Lemma run_connected_confirm_panics (w : World) (pkg : Package)
    (o : deleteOptions) (c : Connection) (msg : string) :
  isDryRun pkg = false ->
  confirm_result w = Panicked msg ->
  run_connected w pkg o c = ([EConfirmSend], Panicked msg).
Proof.
  intros Hd Hc. unfold run_connected, confirmSend. rewrite Hd, Hc. reflexivity.
Qed.

(** How [run_connected] can end the process: by its own exit on a failed
    lookup, or because [confirmSend] or [sendRequest], called last, did. *)
Lemma run_connected_exit (w : World) (pkg : Package) (o : deleteOptions)
    (c : Connection) (code : Z) :
  snd (run_connected w pkg o c) = Exited code ->
  code = 1 \/
  (confirm_result w = Exited code /\
   fst (run_connected w pkg o c) = [EConfirmSend]) \/
  (exists req pre,
     send_result w req = Exited code /\
     fst (run_connected w pkg o c) = (pre ++ [ESendRequest req])%list).
Proof.
  intros H.
  destruct (isDryRun pkg) eqn:Hd;
    [rewrite (run_connected_dry _ _ _ _ Hd) in H; discriminate H|].
  destruct (confirm_result w) as [x|code'|msg] eqn:Hc.
  - destruct (cluster_get_result w c (clusterID o)) as [cl|err] eqn:Hg.
    + rewrite (run_connected_lookup_ok _ _ _ _ _ _ Hd Hc Hg) in H |- *.
      cbn [fst snd] in *.
      destruct (createDeleteRequest_returns w c cl (limitedSupportReasonID o))
        as (req & e1 & H1 & _).
      destruct (send_result w req) as [[resp e2]|code'|msg] eqn:Hs.
      * rewrite (run_delete_sent w o c cl req e1 resp e2 H1 Hs) in H.
        cbn [snd] in H. pose proof (checkDelete_never_exits w resp) as Hn.
        destruct (snd (checkDelete w resp));
          [discriminate H | contradiction | discriminate H].
      * destruct (run_delete_send_stops w o c cl req e1 H1) as [pre E];
          [rewrite Hs; discriminate|].
        rewrite Hs in E. rewrite E in H |- *. cbn [fst snd] in *.
        injection H as ->.
        right. right. exists req, (EConfirmSend :: EClusterGet c (clusterID o) :: pre).
        split; [exact Hs | reflexivity].
      * destruct (run_delete_send_stops w o c cl req e1 H1) as [pre E];
          [rewrite Hs; discriminate|].
        rewrite Hs in E. rewrite E in H. discriminate H.
    + rewrite (run_connected_lookup_fails _ _ _ _ _ _ Hd Hc Hg) in H.
      injection H as <-. now left.
  - rewrite (run_connected_confirm_exits _ _ _ _ _ Hd Hc) in H |- *.
    injection H as ->. right. left. split; reflexivity.
  - rewrite (run_connected_confirm_panics _ _ _ _ _ Hd Hc) in H. discriminate H.
Qed.

(** X17: if [run] ends the process, the status is 1, unless the last call
    [run] made was to [confirmSend] or to [sendRequest] and that call ended
    the process with that status. *)
Theorem run_exit_status (w : World) (pkg : Package) (o : deleteOptions)
    (code : Z) :
  snd (run w pkg o) = Exited code ->
  code = 1 \/
  (confirm_result w = Exited code /\
   exists pre, fst (run w pkg o) = (pre ++ [EConfirmSend])%list) \/
  (exists req,
     send_result w req = Exited code /\
     exists pre, fst (run w pkg o) = (pre ++ [ESendRequest req])%list).
Proof.
  destruct (run_session w pkg o) as
    (pre & Hpre & [(token & c & _ & E) | [(token & err & E) | [E | E]]]);
    rewrite E; cbn [fst snd]; intros H; try (injection H as <-; now left);
    try discriminate H.
  rewrite defer_Close in H |- *.
  assert (H' : snd (run_connected w pkg o c) = Exited code)
    by (destruct (snd (run_connected w pkg o c)); cbn [snd] in H; congruence).
  rewrite H'. cbn [fst].
  destruct (run_connected_exit w pkg o c code H')
    as [H1 | [[Hc Ht] | (req & pre' & Hs & Ht)]].
  - now left.
  - right. left. split; [exact Hc|].
    exists (pre ++ [EBuild token (inl c)])%list.
    rewrite Ht, <- app_assoc. reflexivity.
  - right. right. exists req. split; [exact Hs|].
    exists (pre ++ EBuild token (inl c) :: pre')%list.
    rewrite Ht, <- app_assoc. reflexivity.
Qed.

(** How [run_connected] can panic. *)
Lemma run_connected_panic (w : World) (pkg : Package) (o : deleteOptions)
    (c : Connection) (msg : string) :
  snd (run_connected w pkg o c) = Panicked msg ->
  (confirm_result w = Panicked msg /\
   fst (run_connected w pkg o c) = [EConfirmSend]) \/
  (exists req pre,
     send_result w req = Panicked msg /\
     fst (run_connected w pkg o c) = (pre ++ [ESendRequest req])%list) \/
  (exists req err,
     send_result w req = Returned (None, err) /\
     msg = nil_dereference /\
     In (ESendRequest req) (fst (run_connected w pkg o c))).
Proof.
  intros H.
  destruct (isDryRun pkg) eqn:Hd;
    [rewrite (run_connected_dry _ _ _ _ Hd) in H; discriminate H|].
  destruct (confirm_result w) as [x|code|msg'] eqn:Hc.
  - destruct (cluster_get_result w c (clusterID o)) as [cl|err] eqn:Hg.
    + rewrite (run_connected_lookup_ok _ _ _ _ _ _ Hd Hc Hg) in H |- *.
      cbn [fst snd] in *.
      destruct (createDeleteRequest_returns w c cl (limitedSupportReasonID o))
        as (req & e1 & H1 & _).
      destruct (send_result w req) as [[resp e2]|code|msg'] eqn:Hs.
      * rewrite (run_delete_sent w o c cl req e1 resp e2 H1 Hs) in H |- *.
        cbn [fst snd] in *. pose proof (checkDelete_never_exits w resp) as Hn.
        destruct (snd (checkDelete w resp)) as [e3|code|msg'];
          [discriminate H | contradiction |].
        injection H as ->. destruct Hn as [-> ->].
        right. right. exists req, e2. split; [exact Hs|]. split; [reflexivity|].
        right. right. apply in_or_app. right. apply in_or_app. right.
        left. reflexivity.
      * destruct (run_delete_send_stops w o c cl req e1 H1) as [pre E];
          [rewrite Hs; discriminate|].
        rewrite Hs in E. rewrite E in H. discriminate H.
      * destruct (run_delete_send_stops w o c cl req e1 H1) as [pre E];
          [rewrite Hs; discriminate|].
        rewrite Hs in E. rewrite E in H |- *. cbn [fst snd] in *.
        injection H as ->.
        right. left. exists req, (EConfirmSend :: EClusterGet c (clusterID o) :: pre).
        split; [exact Hs | reflexivity].
    + rewrite (run_connected_lookup_fails _ _ _ _ _ _ Hd Hc Hg) in H.
      discriminate H.
  - rewrite (run_connected_confirm_exits _ _ _ _ _ Hd Hc) in H. discriminate H.
  - rewrite (run_connected_confirm_panics _ _ _ _ _ Hd Hc) in H |- *.
    injection H as ->. left. split; reflexivity.
Qed.

(** X18: [run] panics only in these ways: it consulted the fallback
    lookup and was handed a nil token with a nil error; the last call it
    made before closing the session was to [confirmSend] or to
    [sendRequest] and that call panicked; or the [sendRequest] it made
    handed back a nil response. *)
Theorem run_panic_causes (w : World) (pkg : Package) (o : deleteOptions)
    (msg : string) :
  snd (run w pkg o) = Panicked msg ->
  (environ w "OCM_TOKEN" = EmptyString /\
   ocm_access_token w = (None, None) /\
   run w pkg o =
     ([EGetenv "OCM_TOKEN"; EGetOCMAccessToken], Panicked nil_dereference)) \/
  (confirm_result w = Panicked msg /\
   exists pre c, fst (run w pkg o) = (pre ++ [EConfirmSend; EClose c])%list) \/
  (exists req,
     send_result w req = Panicked msg /\
     exists pre c, fst (run w pkg o) = (pre ++ [ESendRequest req; EClose c])%list) \/
  (exists req err,
     send_result w req = Returned (None, err) /\
     msg = nil_dereference /\
     In (ESendRequest req) (fst (run w pkg o))).
Proof.
  intros H.
  assert (Hs :
    (environ w "OCM_TOKEN" = EmptyString /\
     ocm_access_token w = (None, None) /\
     run w pkg o =
       ([EGetenv "OCM_TOKEN"; EGetOCMAccessToken], Panicked nil_dereference)) \/
    exists pre token c,
      run w pkg o =
        ((pre ++ EBuild token (inl c)
              :: fst (run_connected w pkg o c) ++ [EClose c])%list,
         Panicked msg) /\
      snd (run_connected w pkg o c) = Panicked msg).
  { revert H.
    unfold run, os_Getenv, GetOCMAccessToken, Build, log_Fatalf,
      fmt_Fprintf_Stderr, deref_string, if_err.
    cbn -[String.append defer run_connected].
    destruct (String.eqb (environ w "OCM_TOKEN") EmptyString) eqn:Henv.
    - cbn -[String.append defer run_connected].
      destruct (ocm_access_token w) as [[tok|] [err|]];
        cbn -[String.append defer run_connected]; try discriminate.
      + destruct (build_result w tok) as [c|err]; [|discriminate].
        rewrite defer_Close. intros H. right.
        exists [EGetenv "OCM_TOKEN"; EGetOCMAccessToken], tok, c.
        destruct (snd (run_connected w pkg o c)); cbn in H |- *;
          try discriminate H.
        injection H as ->. split; reflexivity.
      + intros _. left. apply String.eqb_eq in Henv. repeat split. exact Henv.
    - cbn -[String.append defer run_connected].
      destruct (build_result w (environ w "OCM_TOKEN")) as [c|err]; [|discriminate].
      rewrite defer_Close. intros H. right.
      exists [EGetenv "OCM_TOKEN"], (environ w "OCM_TOKEN"), c.
      destruct (snd (run_connected w pkg o c)); cbn in H |- *;
        try discriminate H.
      injection H as ->. split; reflexivity. }
  destruct Hs as [Hs | (pre & token & c & E & H')]; [now left|]. right.
  rewrite E. cbn [fst].
  destruct (run_connected_panic w pkg o c msg H')
    as [[Hc Ht] | [(req & pre' & Hsend & Ht) | (req & err & Hsend & Hm & Hin)]].
  - left. split; [exact Hc|].
    exists (pre ++ [EBuild token (inl c)])%list, c.
    rewrite Ht, <- app_assoc. reflexivity.
  - right. left. exists req. split; [exact Hsend|].
    exists (pre ++ EBuild token (inl c) :: pre')%list, c.
    rewrite Ht, <- !app_assoc. cbn [app]. rewrite <- ?app_assoc. reflexivity.
  - right. right. exists req, err. split; [exact Hsend|]. split; [exact Hm|].
    apply in_or_app. right. right. apply in_or_app. left. exact Hin.
Qed.

(** ** The command entry point *)

Lemma complete_cases (cli : Cli) (o : boundOptions) (args : list string) :
  complete cli o args =
    match args with
    | [cluster] =>
        match globalOptions o with
        | Some g =>
            ([],
             Returned
               (mkBoundOptions
                  (mkDeleteOptions (Output g) (verbose (fields o)) cluster
                     (limitedSupportReasonID (fields o)))
                  (globalOptions o),
                None))
        | None => ([], Panicked nil_dereference)
        end
    | _ =>
        ([],
         Returned
           (o, Some (usage_error cli "Provide exactly one internal cluster ID")))
    end.
Proof.
  unfold complete, arg_at, GlobalOptions_Output.
  destruct args as [|a [|b rest]]; try reflexivity.
  cbn. destruct (globalOptions o); reflexivity.
Qed.

Lemma ExactArgs_one (cli : Cli) (args : list string) :
  ExactArgs cli 1 args = None -> exists cluster, args = [cluster].
Proof.
  unfold ExactArgs. destruct args as [|a [|b rest]]; try discriminate.
  intros _. now exists a.
Qed.

(** X19: [complete] never reads [args] out of range.  With exactly one
    argument and global options that are there, it returns no error, the
    argument becomes the cluster ID, the output format is taken from the
    global options, and the reason ID and the verbosity set by the flags
    are kept; with exactly one argument and nil global options it panics
    on the nil pointer; with any other number of arguments the options are
    left alone and the usage error is returned. *)
Theorem complete_one_argument (cli : Cli) (o : boundOptions)
    (args : list string) :
  complete cli o args =
    match args with
    | [cluster] =>
        match globalOptions o with
        | Some g =>
            ([],
             Returned
               (mkBoundOptions
                  (mkDeleteOptions (Output g) (verbose (fields o)) cluster
                     (limitedSupportReasonID (fields o)))
                  (globalOptions o),
                None))
        | None => ([], Panicked nil_dereference)
        end
    | _ =>
        ([],
         Returned
           (o, Some (usage_error cli "Provide exactly one internal cluster ID")))
    end.
Proof. exact (complete_cases cli o args). Qed.

(** X20: the length test of [complete] agrees with the [Args] check of the
    command: for arguments the check accepts, [complete] answers with no
    error, so its usage error cannot come about through the command; for
    arguments the check refuses, [complete] would return the usage error
    and leave the options alone. *)
Theorem complete_agrees_with_Args (w : World) (cli : Cli)
    (globalOpts : option GlobalOptions) (o : boundOptions)
    (args : list string) :
  (Args (newCmddelete w cli globalOpts) args = None ->
   match snd (complete cli o args) with
   | Returned (_, Some _) => False
   | _ => True
   end) /\
  (Args (newCmddelete w cli globalOpts) args <> None ->
   complete cli o args =
     ([],
      Returned
        (o, Some (usage_error cli "Provide exactly one internal cluster ID")))).
Proof.
  cbn [Args newCmddelete]. split.
  - intros Hargs. destruct (ExactArgs_one cli args Hargs) as [cluster ->].
    rewrite complete_cases. destruct (globalOptions o); exact I.
  - intros Hargs. rewrite complete_cases.
    destruct args as [|a [|b rest]]; try reflexivity.
    now destruct Hargs.
Qed.

(** X21: on arguments the [Args] check accepts and with global options
    that are there, the [Run] function of the command does what [run] does
    with the dry-run flag in [isDryRun] and the options made of the output
    of the global options, the verbosity and reason ID of the flags and
    the argument as cluster ID; it ends as [run] ends, the error check
    after [run] never firing.  With nil global options it panics before
    [run] is entered. *)
Theorem Run_accepted_arguments (w : World) (cli : Cli)
    (globalOpts : option GlobalOptions) (flags : Flags) (args : list string) :
  Args (newCmddelete w cli globalOpts) args = None ->
  exists cluster,
    args = [cluster] /\
    Run (newCmddelete w cli globalOpts) flags args =
      match globalOpts with
      | Some g =>
          let o :=
            mkDeleteOptions (Output g) (verbose_flag flags) cluster
              (limited_support_reason_id flags) in
          (fst (run w (mkPackage (dry_run flags)) o),
           match snd (run w (mkPackage (dry_run flags)) o) with
           | Returned _ => Returned tt
           | Exited code => Exited code
           | Panicked msg => Panicked msg
           end)
      | None => ([], Panicked nil_dereference)
      end.
Proof.
  intros Hargs. cbn [Args newCmddelete] in Hargs.
  destruct (ExactArgs_one cli args Hargs) as [cluster ->].
  exists cluster. split; [reflexivity|].
  cbn [Run newCmddelete]. rewrite complete_cases.
  cbn [globalOptions newDeleteOptions].
  destruct globalOpts as [g|]; [|reflexivity].
  cbn -[run].
  pose proof (run_result_nil w (mkPackage (dry_run flags))
                (mkDeleteOptions (Output g) (verbose_flag flags) cluster
                   (limited_support_reason_id flags))) as Hnil.
  destruct (run w (mkPackage (dry_run flags))
              (mkDeleteOptions (Output g) (verbose_flag flags) cluster
                 (limited_support_reason_id flags))) as [t [e|code|msg]];
    cbn [fst snd] in *.
  - subst e. cbn. now rewrite app_nil_r.
  - reflexivity.
  - reflexivity.
Qed.

(** ** The further theorems at work on the sample worlds *)

Lemma env_token_takes_precedence_witness :
  (exists rest,
     fst (run (world_reply 204 EmptyString) live sample_options) =
       EGetenv "OCM_TOKEN" :: EBuild "t0k3n" (inl sample_connection) :: rest) /\
  existsb is_token_fallback
    (fst (run (world_reply 204 EmptyString) live sample_options)) = false.
Proof.
  apply (env_token_takes_precedence (world_reply 204 EmptyString) live
           sample_options).
  discriminate.
Defined.

Lemma fallback_token_is_used_witness :
  exists rest,
    fst (run world_fallback live sample_options) =
      EGetenv "OCM_TOKEN" :: EGetOCMAccessToken
        :: EBuild "f4llb4ck" (inl (mkConnection "f4llb4ck")) :: rest.
Proof.
  apply (fallback_token_is_used world_fallback live sample_options "f4llb4ck");
    reflexivity.
Defined.

Lemma no_token_is_fatal_witness :
  run world_no_token live sample_options =
    ([EGetenv "OCM_TOKEN"; EGetOCMAccessToken; ELogFatalf fatal_no_token],
     Exited 1).
Proof.
  apply (no_token_is_fatal world_no_token live sample_options
           "ocm is not configured"); reflexivity.
Defined.

Lemma build_failure_is_fatal_witness :
  exists pre,
    forallb is_credential_call pre = true /\
    run world_no_session live sample_options =
      ((pre ++ [EBuild "t0k3n" (inr "token is expired");
                EStderr ("Can't build connection: token is expired" ++ nl)])%list,
       Exited 1).
Proof.
  apply (build_failure_is_fatal world_no_session live sample_options
           "t0k3n" "token is expired").
  right. left. reflexivity.
Defined.

Lemma lookup_failure_is_fatal_witness :
  exists pre,
    forallb is_credential_call pre = true /\
    run world_no_cluster live sample_options =
      ((pre ++ [EBuild "t0k3n" (inl sample_connection); EConfirmSend;
                EClusterGet sample_connection "1a2b3c";
                EStderr ("Can't retrieve cluster: status is 404" ++ nl)])%list,
       Exited 1).
Proof.
  apply (lookup_failure_is_fatal world_no_cluster live sample_options
           "t0k3n" sample_connection None "status is 404");
    [reflexivity | right; left; reflexivity | reflexivity | reflexivity].
Defined.

Lemma confirm_exit_stops_run_witness :
  exists pre,
    forallb is_credential_call pre = true /\
    run (answer_confirm (world_reply 204 EmptyString) (Exited 1)) live
      sample_options =
      ((pre ++ [EBuild "t0k3n" (inl sample_connection); EConfirmSend])%list,
       Exited 1).
Proof.
  apply (confirm_exit_stops_run
           (answer_confirm (world_reply 204 EmptyString) (Exited 1)) live
           sample_options "t0k3n" sample_connection 1);
    [reflexivity | right; left; reflexivity | reflexivity].
Defined.

Lemma confirm_result_is_discarded_witness :
  run (answer_confirm (world_reply 204 EmptyString) (Returned (Some "declined")))
    live sample_options =
  run (answer_confirm
         (answer_confirm (world_reply 204 EmptyString) (Returned (Some "declined")))
         (Returned None))
    live sample_options.
Proof.
  apply (confirm_result_is_discarded
           (answer_confirm (world_reply 204 EmptyString) (Returned (Some "declined")))
           live sample_options (Some "declined")).
  reflexivity.
Defined.

Lemma dry_run_ignores_options_witness :
  run world_no_cluster dry sample_options = run world_no_cluster dry alias_options.
Proof.
  apply (dry_run_ignores_options world_no_cluster dry sample_options alias_options).
  reflexivity.
Defined.

Lemma close_is_last_and_once_witness :
  exists token pre,
    fst (run (world_reply 400 "not-json") live sample_options) =
      (pre ++ [EClose sample_connection])%list /\
    In (EBuild token (inl sample_connection)) pre /\
    existsb is_close pre = false.
Proof.
  apply (close_is_last_and_once (world_reply 400 "not-json") live sample_options
           sample_connection).
  do 8 right. left. reflexivity.
Defined.

Lemma successful_delete_witness :
  exists pre,
    forallb is_credential_call pre = true /\
    run (world_reply 204 EmptyString) live sample_options =
      ((pre ++ [EBuild "t0k3n" (inl sample_connection); EConfirmSend;
                EClusterGet sample_connection "1a2b3c"; EDelete sample_connection;
                EApplyPathArg (mkRequest sample_connection MethodDelete EmptyString [])
                  (delete_target sample_cluster "r-42");
                ESendRequest (Some sample_request);
                EStdout ("Limited support reason deleted successfully" ++ nl);
                EClose sample_connection])%list,
       Returned None).
Proof.
  apply (successful_delete (world_reply 204 EmptyString) live sample_options
           "t0k3n" sample_connection None sample_cluster sample_request
           (mkResponse 204 []));
    [reflexivity | right; left; reflexivity | reflexivity | reflexivity
    | reflexivity | reflexivity | reflexivity].
Defined.

Lemma refused_delete_is_silent_witness :
  exists pre,
    forallb is_credential_call pre = true /\
    run (world_reply 404 "{}") live sample_options =
      ((pre ++ [EBuild "t0k3n" (inl sample_connection); EConfirmSend;
                EClusterGet sample_connection "1a2b3c"; EDelete sample_connection;
                EApplyPathArg (mkRequest sample_connection MethodDelete EmptyString [])
                  (delete_target sample_cluster "r-42");
                ESendRequest (Some sample_request);
                EClose sample_connection])%list,
       Returned None).
Proof.
  apply (refused_delete_is_silent (world_reply 404 "{}") live sample_options
           "t0k3n" sample_connection None sample_cluster sample_request
           (mkResponse 404 (list_byte_of_string "{}")));
    [reflexivity | right; left; reflexivity | reflexivity | reflexivity
    | reflexivity | reflexivity | discriminate | reflexivity | reflexivity].
Defined.

Lemma delete_targets_canonical_id_witness :
  exists pre post,
    fst (run world_alias live alias_options) =
      (pre ++ [EClusterGet sample_connection "my-cluster";
               EDelete sample_connection;
               EApplyPathArg (mkRequest sample_connection MethodDelete EmptyString [])
                 "/api/clusters_mgmt/v1/clusters/c4n0n1c4l/limited_support_reasons/r-42"]
           ++ post)%list.
Proof.
  apply (delete_targets_canonical_id world_alias live alias_options "t0k3n"
           sample_connection None (mkCluster "c4n0n1c4l" "ext-7" "prod"));
    [reflexivity | right; left; reflexivity | reflexivity | reflexivity].
Defined.

Lemma checkDelete_other_statuses_alike_witness :
  checkDelete (world_reply 400 "42")
    (Some (mkResponse 400 (list_byte_of_string "42"))) =
  checkDelete (world_reply 400 "42")
    (Some (mkResponse 500 (list_byte_of_string "42"))).
Proof.
  apply (checkDelete_other_statuses_alike (world_reply 400 "42")
           (mkResponse 400 (list_byte_of_string "42"))
           (mkResponse 500 (list_byte_of_string "42")));
    [discriminate | discriminate | reflexivity].
Defined.

Lemma run_exit_status_witness :
  confirm_result (answer_confirm (world_reply 204 EmptyString) (Exited 0)) =
    Exited 0 /\
  exists pre,
    fst (run (answer_confirm (world_reply 204 EmptyString) (Exited 0)) live
           sample_options) = (pre ++ [EConfirmSend])%list.
Proof.
  destruct (run_exit_status
              (answer_confirm (world_reply 204 EmptyString) (Exited 0)) live
              sample_options 0 eq_refl)
    as [H | [H | (req & Hs & _)]].
  - discriminate H.
  - exact H.
  - destruct req; discriminate Hs.
Defined.

Lemma run_panic_causes_witness :
  exists req err,
    send_result world_send_fails req = Returned (None, err) /\
    nil_dereference = nil_dereference /\
    In (ESendRequest req) (fst (run world_send_fails live sample_options)).
Proof.
  destruct (run_panic_causes world_send_fails live sample_options
              nil_dereference eq_refl)
    as [(H & _) | [(H & _) | [(req & H & _) | H]]].
  - discriminate H.
  - discriminate H.
  - discriminate H.
  - exact H.
Defined.

Lemma complete_agrees_with_Args_witness :
  match snd (complete sample_cli
               (newDeleteOptions (Some (mkGlobalOptions "json"))) ["1a2b3c"]) with
  | Returned (_, Some _) => False
  | _ => True
  end /\
  complete sample_cli (newDeleteOptions (Some (mkGlobalOptions "json")))
    ["1a2b3c"; "4d5e6f"] =
    ([],
     Returned
       (newDeleteOptions (Some (mkGlobalOptions "json")),
        Some (usage_error sample_cli "Provide exactly one internal cluster ID"))).
Proof.
  split.
  - apply (complete_agrees_with_Args (world_reply 204 EmptyString) sample_cli
             (Some (mkGlobalOptions "json"))
             (newDeleteOptions (Some (mkGlobalOptions "json"))) ["1a2b3c"]).
    reflexivity.
  - apply (complete_agrees_with_Args (world_reply 204 EmptyString) sample_cli
             (Some (mkGlobalOptions "json"))
             (newDeleteOptions (Some (mkGlobalOptions "json")))
             ["1a2b3c"; "4d5e6f"]).
    discriminate.
Defined.

Lemma Run_accepted_arguments_witness :
  exists cluster,
    ["1a2b3c"] = [cluster] /\
    Run (newCmddelete (world_reply 204 EmptyString) sample_cli
           (Some (mkGlobalOptions "json")))
      sample_flags ["1a2b3c"] =
      (fst (run (world_reply 204 EmptyString) (mkPackage false)
              (mkDeleteOptions "json" false cluster "r-42")),
       match snd (run (world_reply 204 EmptyString) (mkPackage false)
                    (mkDeleteOptions "json" false cluster "r-42")) with
       | Returned _ => Returned tt
       | Exited code => Exited code
       | Panicked msg => Panicked msg
       end).
Proof.
  apply (Run_accepted_arguments (world_reply 204 EmptyString) sample_cli
           (Some (mkGlobalOptions "json")) sample_flags ["1a2b3c"]).
  reflexivity.
Defined.
